(** * WCS raster downloader: a shallow embedding of [wcs_downloader.py]
    and of the download cell of the notebook [sjekker_features.py].

    Python floats are IEEE-754 binary64 values ([spec_float] of the
    standard library, [prec = 53], [emax = 1024]); Python ints are [Z];
    byte strings and text are [string]; the file system is a finite map
    from paths to file contents; exceptions are values carrying the class
    name and the message, and effectful code lives in a state-and-exception
    monad over the [world].

    The worker threads are interleaved job by job: a [schedule] fixes the
    order in which the submitted jobs take effect, the thread each runs on,
    and the order in which [as_completed] yields them; this is exact
    when the index labels of the frame are distinct, so that no two jobs
    share an output path. Loading and reprojecting the parquet file, the
    creation of the output directory and of the pool (which refuses a
    worker count below one), the progress bar and the console are left
    out: [process_polygons] and [main] describe the runs in which these
    succeed. *)

From Stdlib Require Import ZArith SpecFloat Ascii String.
From stdpp Require Import base option list gmap strings pretty.

Open Scope string_scope.
Open Scope Z_scope.

(** ** Python floats *)

Module PyFloat.

Abbreviation float := spec_float.

Definition fsub : float → float → float := SFsub 53 1024.
Definition fdiv : float → float → float := SFdiv 53 1024.
Definition flt : float → float → bool := SFltb.

(** [lit m e] is the double nearest to [m * 2^e]. *)
Definition lit (m e : Z) : float := binary_normalize 53 1024 m e false.

(** [math.isnan] *)
Definition isnan (x : float) : bool :=
  match x with S754_nan => true | _ => false end.

Definition is_zero (x : float) : bool :=
  match x with S754_zero _ => true | _ => false end.

Definition is_finite (x : float) : bool :=
  match x with S754_zero _ | S754_finite _ _ _ => true | _ => false end.

End PyFloat.
Import PyFloat.

(** ** Exceptions *)

Record exn := Exn { exn_type : string; exn_msg : string }.

Definition ValueError (msg : string) : exn := Exn "ValueError" msg.
Definition OverflowError (msg : string) : exn := Exn "OverflowError" msg.
Definition ZeroDivisionError (msg : string) : exn := Exn "ZeroDivisionError" msg.
Definition KeyError (msg : string) : exn := Exn "KeyError" msg.

(** A pure computation that may raise. *)
Definition result (A : Type) : Type := exn + A.

Definition rbind {A B} (m : result A) (k : A → result B) : result B :=
  match m with inl e => inl e | inr a => k a end.

(** [x / y] on floats. *)
Definition py_truediv (x y : float) : result float :=
  if is_zero y then inl (ZeroDivisionError "float division by zero")
  else inr (fdiv x y).

(** [int(x)]: truncation toward zero. *)
Definition py_int (x : float) : result Z :=
  match x with
  | S754_zero _ => inr 0
  | S754_infinity _ => inl (OverflowError "cannot convert float infinity to integer")
  | S754_nan => inl (ValueError "cannot convert float NaN to integer")
  | S754_finite s m e => inr (cond_Zopp s (Z.shiftl (Zpos m) e))
  end.

(** [float(n)] for an int [n]. *)
Definition py_float_of_int (n : Z) : result float :=
  match lit n 0 with
  | S754_infinity _ => inl (OverflowError "int too large to convert to float")
  | f => inr f
  end.

(** ** Rows of the bounds frame *)

Record Row := mkRow { Index : Z; minx : float; miny : float; maxx : float; maxy : float }.

(** ** Request planning, [download_single_polygon] lines 133-134 *)

Definition pixel_extent (hi lo resolution : float) : result Z :=
  rbind (py_truediv (fsub hi lo) resolution) (λ q,
  rbind (py_int q) (λ n, inr (Z.max 1 n))).

Definition pixel_dims (row : Row) (resolution : float) : result (Z * Z) :=
  rbind (pixel_extent (maxx row) (minx row) resolution) (λ width,
  rbind (pixel_extent (maxy row) (miny row) resolution) (λ height,
  inr (width, height))).

(** The formula of the specification: [max(1, floor(d / resolution))],
    with [math.floor] in place of [int]. *)
Module Spec.

(** The largest integer below a finite float [±m * 2^e]. *)
Definition floor (x : float) : Z :=
  match x with
  | S754_finite s m e => Z.shiftl (cond_Zopp s (Zpos m)) e
  | _ => 0
  end.

(** [math.floor(x)] *)
Definition py_floor (x : float) : result Z :=
  match x with
  | S754_infinity _ => inl (OverflowError "cannot convert float infinity to integer")
  | S754_nan => inl (ValueError "cannot convert float NaN to integer")
  | _ => inr (floor x)
  end.

Definition pixel_extent (hi lo resolution : float) : result Z :=
  rbind (py_truediv (fsub hi lo) resolution) (λ q,
  rbind (py_floor q) (λ n, inr (Z.max 1 n))).

Definition pixel_dims (row : Row) (resolution : float) : result (Z * Z) :=
  rbind (pixel_extent (maxx row) (minx row) resolution) (λ width,
  rbind (pixel_extent (maxy row) (miny row) resolution) (λ height,
  inr (width, height))).

End Spec.

(** ** The world: file system, per-thread sessions, observable events *)

(** A session object, [WebCoverageService(url, version=...)]. *)
Record WebCoverageService := mkWCS { service_url : string; service_version : string }.

(** The keyword arguments of [wcs.getCoverage]. *)
Record CoverageRequest := mkRequest {
  identifier : string;
  bbox : float * float * float * float;
  crs : string;
  format : string;
  width : Z;
  height : Z
}.

(** What the job does to its surroundings, in program order. *)
Inductive event :=
  | EvConnect (url version : string)
  | EvGetCoverage (wcs : WebCoverageService) (req : CoverageRequest)
  | EvRead
  | EvTempCreate (path : string)
  | EvRasterLoad (path : string)
  | EvCreateMask
  | EvSetMask
  | EvSave (path : string)
  | EvUnlink (path : string)
  | EvSleep (seconds : float).

Record world := mkWorld {
  fs : gmap string string;                       (* path ↦ content *)
  thread_local : gmap nat WebCoverageService;    (* thread ↦ thread_local.wcs *)
  trace : list event
}.

Definition set_fs (f : gmap string string → gmap string string) (w : world) : world :=
  mkWorld (f (fs w)) (thread_local w) (trace w).

Definition log (ev : event) (w : world) : world :=
  mkWorld (fs w) (thread_local w) (trace w ++ [ev]).

(** ** The state-and-exception monad *)

Definition M (A : Type) : Type := world → result A * world.

#[global] Instance M_ret : MRet M := λ A a w, (inr a, w).

#[global] Instance M_bind : MBind M := λ A B k m w,
  match m w with
  | (inl e, w') => (inl e, w')
  | (inr a, w') => k a w'
  end.

Definition raise {A} (e : exn) : M A := λ w, (inl e, w).

Definition lift {A} (r : result A) : M A := λ w, (r, w).

Definition emit (ev : event) : M unit := λ w, (inr (), log ev w).

Definition modify_fs (f : gmap string string → gmap string string) : M unit :=
  λ w, (inr (), set_fs f w).

(** [try: body finally: cleanup] *)
Definition try_finally {A} (body : M A) (cleanup : M unit) : M A := λ w,
  let '(r, w') := body w in
  match cleanup w' with
  | (inl e, w'') => (inl e, w'')
  | (inr _, w'') => (r, w'')
  end.

(** ** External collaborators

    Everything the pipeline calls but does not implement: the float
    formatter of the language, the UTF-8 decoder, the OWSLib client, the
    operating system's temporary-file write, geoutils, and [time.sleep],
    which raises [OverflowError] on a duration too large for the system
    clock (an infinite one, or about 9.2e9 seconds and more). A collaborator
    that raises leaves the file system as it found it. *)

Record Env (geometry raster mask : Type) := mkEnv {
  float_str : float → string;
  decode_replace : string → string;
  geom_bounds : geometry → float * float * float * float;
  wcs_connect : string → string → option exn;
  wcs_getCoverage : WebCoverageService → CoverageRequest → result (result string);
  tmp_write : string → string → option exn;
  Raster_load : string → result raster;
  Vector_create_mask : list geometry → raster → result mask;
  mask_invert : mask → mask;
  Raster_set_mask : raster → mask → result raster;
  Raster_save : raster → string → result string;
  sleep_raises : float → option exn;
  now_isoformat : nat → string
}.

Arguments float_str {_ _ _} _ _.
Arguments decode_replace {_ _ _} _ _.
Arguments geom_bounds {_ _ _} _ _.
Arguments wcs_connect {_ _ _} _ _ _.
Arguments wcs_getCoverage {_ _ _} _ _ _.
Arguments tmp_write {_ _ _} _ _ _.
Arguments Raster_load {_ _ _} _ _.
Arguments Vector_create_mask {_ _ _} _ _ _.
Arguments mask_invert {_ _ _} _ _.
Arguments Raster_set_mask {_ _ _} _ _ _.
Arguments Raster_save {_ _ _} _ _ _.
Arguments sleep_raises {_ _ _} _ _.
Arguments now_isoformat {_ _ _} _ _.

(** ** Job results *)

Record DownloadResult := mkResult {
  index : Z;
  success : bool;
  skipped : bool;
  error_type : option string;
  error_message : option string
}.

Section pipeline.
Context {geometry raster mask : Type} (E : Env geometry raster mask).

(** [get_wcs_connection], run by thread [tid]. *)
Definition get_wcs_connection (tid : nat) (wcs_url : string) : M WebCoverageService :=
  λ w,
  match thread_local w !! tid with
  | Some wcs => (inr wcs, w)
  | None =>
      let w1 := log (EvConnect wcs_url "1.0.0") w in
      match wcs_connect E wcs_url "1.0.0" with
      | Some e => (inl e, w1)
      | None =>
          let wcs := mkWCS wcs_url "1.0.0" in
          (inr wcs, mkWorld (fs w1) (<[tid := wcs]> (thread_local w1)) (trace w1))
      end
  end.

(** [output_folder / f"D_{resolution}m_{index}.tif"] *)
Definition output_path (output_folder : string) (resolution : float) (index : Z) : string :=
  output_folder +:+ "/" +:+ "D_" +:+ float_str E resolution +:+ "m_" +:+ pretty index +:+ ".tif".

Definition nan_message (index : Z) : string :=
  "Invalid geometry bounds (NaN values) for polygon " +:+ pretty index.

Definition too_large_message (width height max_pixels : Z) : string :=
  "Requested raster too large: " +:+ pretty width +:+ "x" +:+ pretty height +:+ " pixels. "
  +:+ "Max is " +:+ pretty max_pixels +:+ "x" +:+ pretty max_pixels +:+ ". "
  +:+ "Consider using a coarser resolution or increasing --max-pixels.".

(** [data.startswith(b'<') or data.startswith(b'<?')] *)
Definition starts_with_markup (data : string) : bool :=
  String.prefix "<" data || String.prefix "<?" data.

(** [data[:500]] *)
Definition take500 (data : string) : string := String.substring 0 500 data.

Definition service_error_message (data : string) : string :=
  "WCS returned error response: " +:+ decode_replace E (take500 data).

(** [polygon_gdf.loc[[index]]]: the rows labelled [index]; the text of
    pandas' [KeyError] is abridged. *)
Definition loc (polygon_gdf : list (Z * geometry)) (index : Z) : result (list geometry) :=
  match filter (λ r, r.1 = index) polygon_gdf with
  | [] => inl (KeyError ("None of [" +:+ pretty index +:+ "] are in the [index]"))
  | rows => inr (rows.*2)
  end.

(** The [with tempfile.NamedTemporaryFile(...)] block; [tmp] is the name
    the operating system hands out. *)
Definition stage_temp (tmp data : string) : M string :=
  _ ← emit (EvTempCreate tmp);
  _ ← modify_fs (<[tmp := EmptyString]>);
  match tmp_write E tmp data with
  | Some e => raise e
  | None => _ ← modify_fs (<[tmp := data]>); mret tmp
  end.

(** The body of the inner [try]. *)
Definition mask_and_save (polygon_gdf : list (Z * geometry)) (index : Z)
    (temp_path output_file : string) : M unit :=
  _ ← emit (EvRasterLoad temp_path);
  content ← (λ w, (match fs w !! temp_path with
                   | Some c => inr c
                   | None => inl (Exn "FileNotFoundError" temp_path)
                   end, w));
  raster ← lift (Raster_load E content);
  rows ← lift (loc polygon_gdf index);
  _ ← emit EvCreateMask;
  mask ← lift (Vector_create_mask E rows raster);
  _ ← emit EvSetMask;
  raster ← lift (Raster_set_mask E raster (mask_invert E mask));
  _ ← emit (EvSave output_file);
  bytes ← lift (Raster_save E raster output_file);
  modify_fs (<[output_file := bytes]>).

(** [temp_path.unlink(missing_ok=True)] *)
Definition unlink (path : string) : M unit :=
  _ ← emit (EvUnlink path);
  modify_fs (delete path).

(** [time.sleep(seconds)] *)
Definition time_sleep (seconds : float) : M unit :=
  _ ← emit (EvSleep seconds);
  match sleep_raises E seconds with
  | Some e => raise e
  | None => mret ()
  end.

(** The body of the outer [try] of [download_single_polygon]. *)
Definition download_body (tid : nat) (tmp : string)
    (index : Z) (row : Row) (polygon_gdf : list (Z * geometry))
    (wcs_url coverage_id output_file : string)
    (sleep_duration resolution : float) (max_pixels : Z) : M DownloadResult :=
  let bounds := [minx row; miny row; maxx row; maxy row] in
  _ ← (if existsb isnan bounds then raise (ValueError (nan_message index)) else mret ());
  wcs ← get_wcs_connection tid wcs_url;
  let bbox := (minx row, miny row, maxx row, maxy row) in
  dims ← lift (pixel_dims row resolution);
  let '(width, height) := dims in
  _ ← (if (max_pixels <? width) || (max_pixels <? height)
       then raise (ValueError (too_large_message width height max_pixels))
       else mret ());
  let req := mkRequest coverage_id bbox "EPSG:25833" "GeoTIFF" width height in
  _ ← emit (EvGetCoverage wcs req);
  response ← lift (wcs_getCoverage E wcs req);
  _ ← emit EvRead;
  downloaded_data ← lift response;
  _ ← (if starts_with_markup downloaded_data
       then raise (ValueError (service_error_message downloaded_data))
       else mret ());
  temp_path ← stage_temp tmp downloaded_data;
  _ ← try_finally (mask_and_save polygon_gdf index temp_path output_file)
                  (unlink temp_path);
  _ ← (if flt (S754_zero false) sleep_duration
       then time_sleep sleep_duration else mret ());
  mret (mkResult index true false None None).

Definition download_single_polygon (tid : nat) (tmp : string)
    (index : Z) (row : Row) (polygon_gdf : list (Z * geometry))
    (wcs_url coverage_id output_folder : string)
    (sleep_duration resolution : float) (max_pixels : Z)
    (w : world) : DownloadResult * world :=
  let output_file := output_path output_folder resolution index in
  if bool_decide (is_Some (fs w !! output_file))
  then (mkResult index true true None None, w)
  else
    match download_body tid tmp index row polygon_gdf wcs_url coverage_id
                        output_file sleep_duration resolution max_pixels w with
    | (inr r, w') => (r, w')
    | (inl e, w') =>
        (mkResult index false false (Some (exn_type e)) (Some (exn_msg e)), w')
    end.

End pipeline.

(** ** The error log *)

Record FailedPolygon := mkFailed {
  fp_index : Z;
  fp_minx : float;
  fp_miny : float;
  fp_maxx : float;
  fp_maxy : float;
  fp_error_type : string;
  fp_error_message : string;
  fp_timestamp : string
}.

(** [csv.writer] with the default dialect: comma, double quote,
    minimal quoting, CRLF line ends. *)
Module csv.

Definition quotechar : ascii := "034"%char.
Definition CR : ascii := "013"%char.
Definition LF : ascii := "010"%char.
Definition lineterminator : string := String CR (String LF EmptyString).

Definition special (c : ascii) : bool :=
  bool_decide (c = ","%char) || bool_decide (c = quotechar)
  || bool_decide (c = CR) || bool_decide (c = LF).

Fixpoint needs_quote (s : string) : bool :=
  match s with
  | EmptyString => false
  | String c s' => special c || needs_quote s'
  end.

Fixpoint double_quotes (s : string) : string :=
  match s with
  | EmptyString => EmptyString
  | String c s' =>
      if bool_decide (c = quotechar)
      then String c (String c (double_quotes s'))
      else String c (double_quotes s')
  end.

Definition field (s : string) : string :=
  if needs_quote s
  then String quotechar (double_quotes s +:+ String quotechar EmptyString)
  else s.

Fixpoint join (fields : list string) : string :=
  match fields with
  | [] => EmptyString
  | [f] => f
  | f :: rest => f +:+ "," +:+ join rest
  end.

(** The text [writer.writerow(fields)] sends to the file. *)
Definition writerow (fields : list string) : string :=
  match fields with
  | [EmptyString] => String quotechar (String quotechar lineterminator)
  | _ => join (field <$> fields) +:+ lineterminator
  end.

End csv.

Definition csv_header : list string :=
  ["index"; "minx"; "miny"; "maxx"; "maxy"; "error_type"; "error_message"; "timestamp"].

(** [for x in l: body(x)] *)
Fixpoint for_each {A} (l : list A) (body : A → M unit) : M unit :=
  match l with
  | [] => mret ()
  | x :: l' => _ ← body x; for_each l' body
  end.

(** [open(path, "w")]: the file is created or truncated. *)
Definition open_w (path : string) : M unit := modify_fs (<[path := EmptyString]>).

(** [f.write(text)] on a file opened for writing. *)
Definition file_write (path text : string) : M unit :=
  modify_fs (alter (λ content, content +:+ text) path).

(** [result.error_type or "Unknown"] *)
Definition or_default (o : option string) (default : string) : string :=
  match o with
  | Some (String c s) => String c s
  | _ => default
  end.

(** The order in which the thread pool runs the jobs and hands their
    futures back. [run_order] lists, in the order the jobs take effect,
    the position of the submitted row, the worker thread and the name the
    operating system gives a temporary file of that job; [yield_order] is
    the order in which [as_completed] yields the futures. *)
Record schedule := mkSchedule {
  run_order : list (nat * nat * string);
  yield_order : list nat
}.

(** Every submitted future runs once, on one of the [workers] threads, and
    is yielded once. *)
Definition valid_schedule (n : nat) (workers : Z) (s : schedule) : Prop :=
  (run_order s).*1.*1 ≡ₚ seq 0 n
  ∧ yield_order s ≡ₚ seq 0 n
  ∧ Forall (λ job, (Z.of_nat job.1.2 < workers)%Z) (run_order s).

Section orchestrator.
Context {geometry raster mask : Type} (E : Env geometry raster mask).

Definition fields_of (fp : FailedPolygon) : list string :=
  [pretty (fp_index fp); float_str E (fp_minx fp); float_str E (fp_miny fp);
   float_str E (fp_maxx fp); float_str E (fp_maxy fp);
   fp_error_type fp; fp_error_message fp; fp_timestamp fp].

Definition error_log_path (output_folder : string) : string :=
  output_folder +:+ "/" +:+ "failed_polygons.csv".

Definition write_error_log (failed : list FailedPolygon) (output_folder : string)
    : M string :=
  let path := error_log_path output_folder in
  _ ← open_w path;
  _ ← file_write path (csv.writerow csv_header);
  _ ← for_each failed (λ fp, file_write path (csv.writerow (fields_of fp)));
  mret path.

(** [polygon_gdf.bounds] with [itertuples()] *)
Definition bounds_df (polygon_gdf : list (Z * geometry)) : list Row :=
  (λ r, let '(x0, y0, x1, y1) := geom_bounds E r.2 in mkRow r.1 x0 y0 x1 y1)
    <$> polygon_gdf.

Section run.
Context (polygon_gdf : list (Z * geometry))
        (output_dir : string) (sleep_duration : float)
        (wcs_url coverage_id : string) (resolution : float) (max_pixels : Z).

(** One submitted job taking effect. *)
Definition run_job (st : gmap nat DownloadResult * world) (job : nat * nat * string)
    : gmap nat DownloadResult * world :=
  let '(pos, tid, tmp) := job in
  match bounds_df polygon_gdf !! pos with
  | Some row =>
      let '(r, w') :=
        download_single_polygon E tid tmp (Index row) row polygon_gdf wcs_url
          coverage_id output_dir sleep_duration resolution max_pixels st.2 in
      (<[pos := r]> st.1, w')
  | None => st
  end.

Definition run_jobs (s : schedule) (w : world) : gmap nat DownloadResult * world :=
  foldl run_job (∅, w) (run_order s).

(** [for future in as_completed(futures)]: the row and the result. *)
Definition as_completed (s : schedule) (done : gmap nat DownloadResult)
    : list (Row * DownloadResult) :=
  omap (λ pos, row ← bounds_df polygon_gdf !! pos;
               r ← done !! pos;
               Some (row, r))
       (yield_order s).

(** The counters and the list the loop updates; [tick] numbers the
    iterations for the clock. *)
Record tally := mkTally {
  completed : Z;
  skipped_count : Z;
  failed_count : Z;
  failed_polygons : list FailedPolygon;
  tick : nat
}.

Definition aggregate (t : tally) (item : Row * DownloadResult) : tally :=
  let '(row, r) := item in
  if skipped r then
    mkTally (completed t) (skipped_count t + 1) (failed_count t)
            (failed_polygons t) (S (tick t))
  else if success r then
    mkTally (completed t + 1) (skipped_count t) (failed_count t)
            (failed_polygons t) (S (tick t))
  else
    mkTally (completed t) (skipped_count t) (failed_count t + 1)
            (failed_polygons t ++
               [mkFailed (index r) (minx row) (miny row) (maxx row) (maxy row)
                  (or_default (error_type r) "Unknown")
                  (or_default (error_message r) "Unknown error")
                  (now_isoformat E (tick t))])
            (S (tick t)).

Definition process_polygons (s : schedule) (w : world)
    : (Z * Z * Z * list FailedPolygon) * world :=
  let '(done, w') := run_jobs s w in
  let t := foldl aggregate (mkTally 0 0 0 [] 0) (as_completed s done) in
  ((completed t, skipped_count t, failed_count t, failed_polygons t), w').

(** [main] after the banner: the exit code and the world it leaves. *)
Definition main (input_exists : bool) (s : schedule) (w : world) : Z * world :=
  if negb input_exists then (1, w)
  else
    let '((_, _, _, failed), w') := process_polygons s w in
    match failed with
    | [] => (0, w')
    | _ => (0, (write_error_log failed output_dir w').2)
    end.

End run.
End orchestrator.

(** ** The notebook's download cell, [sjekker_features.py] lines 67-68 *)

Module sjekker_features.

(** A Python number: [max(1, x)] gives back the int [1] or the float [x]. *)
Inductive pynum := PyInt (n : Z) | PyFlt (x : float).

(** [max(1, x)] for a float [x] *)
Definition py_max1 (x : float) : pynum :=
  if flt (lit 1 0) x then PyFlt x else PyInt 1.

(** [max(1, int(hi) - (lo))] *)
Definition pixel_extent (hi lo : float) : result pynum :=
  rbind (py_int hi) (λ n,
  rbind (py_float_of_int n) (λ f,
  inr (py_max1 (fsub f lo)))).

Definition pixel_dims (row : Row) : result (pynum * pynum) :=
  rbind (pixel_extent (maxx row) (minx row)) (λ width,
  rbind (pixel_extent (maxy row) (miny row)) (λ height,
  inr (width, height))).

End sjekker_features.

(** ** The notebook's download cell, [sjekker_features.py] lines 49-127

    The cell has no skip test, no check of the bounds or of the response,
    and no [except]: an exception leaves the loop. The masking steps are
    those of the command-line job; the request, whose dimensions need not
    be integers, has no event of its own in the trace. *)

Module notebook.

Section cell.
Context {geometry raster mask : Type} (E : Env geometry raster mask).
(** [wcs.getCoverage] of the notebook's session, by keyword argument. *)
Context (getCoverage : string → float * float * float * float → string → string →
                       sjekker_features.pynum → sjekker_features.pynum →
                       result (result string)).
Context (polygon : list (Z * geometry)) (coverage_id output_folder tempdir : string).

(** [Path(tempfile.gettempdir()) / f"temp_{index}.tif"] *)
Definition temp_path (index : Z) : string :=
  tempdir +:+ "/" +:+ "temp_" +:+ pretty index +:+ ".tif".

(** [output_folder / f"D_1m_{index}.tif"] *)
Definition output_path (index : Z) : string :=
  output_folder +:+ "/" +:+ "D_1m_" +:+ pretty index +:+ ".tif".

(** [temp.write_bytes(data)] *)
Definition write_bytes (path data : string) : M unit :=
  _ ← emit (EvTempCreate path);
  _ ← modify_fs (<[path := EmptyString]>);
  match tmp_write E path data with
  | Some e => raise e
  | None => modify_fs (<[path := data]>)
  end.

(** One pass of the [for] loop. It ends with [time.sleep(0.5)]: half a
    second is within the range of the system clock, so this call returns. *)
Definition download_row (row : Row) : M unit :=
  let index := Index row in
  let bbox := (minx row, miny row, maxx row, maxy row) in
  dims ← lift (sjekker_features.pixel_dims row);
  let '(width, height) := dims in
  response ← lift (getCoverage coverage_id bbox "EPSG:25833" "GeoTIFF" width height);
  _ ← emit EvRead;
  nedlastet_data ← lift response;
  let temp := temp_path index in
  _ ← write_bytes temp nedlastet_data;
  _ ← try_finally (mask_and_save E polygon index temp (output_path index)) (mret ());
  _ ← unlink temp;
  emit (EvSleep (lit 1 (-1))).

(** The cell: [for row in individual_bboxes.itertuples(): ...] *)
Definition download_cell : M unit :=
  for_each (bounds_df E polygon) download_row.

End cell.

End notebook.

(** ** Terminal results

    A [DownloadResult] read the way the aggregation loop reads it. *)

Inductive outcome := Skipped | Success | Failed.

Definition classify (r : DownloadResult) : outcome :=
  if skipped r then Skipped else if success r then Success else Failed.

#[global] Instance outcome_eq_dec : EqDecision outcome.
Proof. solve_decision. Defined.

(** The results of one kind, in order, and their number. *)
Definition of_kind (o : outcome) (rs : list DownloadResult) : list DownloadResult :=
  filter (λ r, classify r = o) rs.

Definition count (o : outcome) (rs : list DownloadResult) : Z :=
  Z.of_nat (length (of_kind o rs)).


(** The coverage requests among some events, in order. *)
Definition coverage_requests (evs : list event)
    : list (WebCoverageService * CoverageRequest) :=
  omap (λ ev, match ev with
              | EvGetCoverage wcs req => Some (wcs, req)
              | _ => None
              end) evs.

(** The URLs of the sessions constructed among some events, in order. *)
Definition connects (evs : list event) : list string :=
  omap (λ ev, match ev with EvConnect url _ => Some url | _ => None end) evs.

(** The pauses among some events, in order. *)
Definition sleeps (evs : list event) : list float :=
  omap (λ ev, match ev with EvSleep d => Some d | _ => None end) evs.

(** ** A concrete environment

    Geometries are their own bounds, rasters are the downloaded bytes, the
    service answers every request with a small tile, except that the
    coverage ["broken"] yields an XML error document. *)

Module Demo.

(** Exact on integral values only, which is all the examples use. *)
Definition integral_str (x : float) : string :=
  match py_int x with
  | inr n => pretty n +:+ ".0"
  | inl _ => "nan"
  end.

(** [time.sleep] as CPython has it on a 64-bit clock: the duration in
    nanoseconds must stay below 2^63. *)
Definition sleep_overflow (seconds : float) : option exn :=
  if flt (SFmul 53 1024 seconds (lit 1000000000 0)) (lit (2 ^ 63) 0) then None
  else Some (OverflowError "timestamp too large to convert to C _PyTime_t").

Definition getCoverage (wcs : WebCoverageService) (req : CoverageRequest)
    : result (result string) :=
  if bool_decide (identifier req = "broken")
  then inr (inr "<ServiceExceptionReport/>")
  else inr (inr "II*tile").

Definition env : Env (float * float * float * float) string unit :=
  {| float_str := integral_str;
     decode_replace := id;
     geom_bounds := id;
     wcs_connect := λ _ _, None;
     wcs_getCoverage := getCoverage;
     tmp_write := λ _ _, None;
     Raster_load := inr;
     Vector_create_mask := λ _ _, inr ();
     mask_invert := id;
     Raster_set_mask := λ r _, inr r;
     Raster_save := λ r _, inr r;
     sleep_raises := sleep_overflow;
     now_isoformat := λ n, "2024-01-01T00:00:0" +:+ pretty n |}.

Definition nan : float := S754_nan.
Definition empty_world : world := mkWorld ∅ ∅ [].

(** A box 1000 ground units wide and 50 high. *)
Definition wide_row : Row := mkRow 0 (lit 0 0) (lit 0 0) (lit 1000 0) (lit 50 0).
(** A box 10 by 10. *)
Definition small_row : Row := mkRow 1 (lit 0 0) (lit 0 0) (lit 10 0) (lit 10 0).
Definition nan_row : Row := mkRow 7 nan (lit 0 0) (lit 10 0) (lit 10 0).

(** A frame holding one polygon, index 7, whose bounds have a NaN. *)
Definition nan_gdf : list (Z * (float * float * float * float)) :=
  [(7, (nan, lit 0 0, lit 10 0, lit 10 0))].

(** One job, run on thread 0 and yielded. *)
Definition one_job : schedule :=
  mkSchedule [(0%nat, 0%nat, "/tmp/tmpa1.tif")] [0%nat].

(** Three polygons: index 3, whose output exists in [resumed_world],
    index 7 with a NaN, index 5. *)
Definition three_gdf : list (Z * (float * float * float * float)) :=
  [(3, (lit 0 0, lit 0 0, lit 10 0, lit 10 0));
   (7, (nan, lit 0 0, lit 10 0, lit 10 0));
   (5, (lit 0 0, lit 0 0, lit 20 0, lit 10 0))].

(** Two workers; the second polygon's job finishes and is yielded first. *)
Definition three_jobs : schedule :=
  mkSchedule [(1%nat, 0%nat, "/tmp/tmpa1.tif"); (0%nat, 1%nat, "/tmp/tmpb2.tif");
              (2%nat, 0%nat, "/tmp/tmpc3.tif")]
             [1%nat; 0%nat; 2%nat].

(** An output directory left by an earlier run. *)
Definition resumed_world : world :=
  mkWorld {[ "out/D_1.0m_3.tif" := "II*old"; "out/failed_polygons.csv" := "stale" ]}
          ∅ [].

(** [process_polygons] on the one-polygon frame [gdf], one worker, no sleep,
    resolution 1.0, at most 100 pixels a side. *)
Definition process (gdf : list (Z * (float * float * float * float)))
    (coverage_id : string) (w : world) :=
  process_polygons env gdf "out" (lit 0 0) "http://wcs" coverage_id (lit 1 0) 100
    one_job w.

(** The job for the 10 by 10 box, thread 0, half a second of sleep,
    resolution 1.0, at most 100 pixels a side. *)
Definition small_job (coverage_id : string) (resolution : float) (w : world)
    : DownloadResult * world :=
  download_single_polygon env 0 "/tmp/tmpa1.tif" 1 small_row
    [(1, (lit 0 0, lit 0 0, lit 10 0, lit 10 0))] "http://wcs" coverage_id "out"
    (lit 1 (-1)) resolution 100 w.

(** An environment whose service cannot be reached. *)
Definition unreachable : Env (float * float * float * float) string unit :=
  {| float_str := integral_str;
     decode_replace := id;
     geom_bounds := id;
     wcs_connect := λ _ _, Some (Exn "ConnectionError" "no route to host");
     wcs_getCoverage := getCoverage;
     tmp_write := λ _ _, None;
     Raster_load := inr;
     Vector_create_mask := λ _ _, inr ();
     mask_invert := id;
     Raster_set_mask := λ r _, inr r;
     Raster_save := λ r _, inr r;
     sleep_raises := sleep_overflow;
     now_isoformat := λ n, "2024-01-01T00:00:0" +:+ pretty n |}.

(** An environment whose disk is full: no temporary file can be written. *)
Definition disk_full : Env (float * float * float * float) string unit :=
  {| float_str := integral_str;
     decode_replace := id;
     geom_bounds := id;
     wcs_connect := λ _ _, None;
     wcs_getCoverage := getCoverage;
     tmp_write := λ _ _, Some (Exn "OSError" "[Errno 28] No space left on device");
     Raster_load := inr;
     Vector_create_mask := λ _ _, inr ();
     mask_invert := id;
     Raster_set_mask := λ r _, inr r;
     Raster_save := λ r _, inr r;
     sleep_raises := sleep_overflow;
     now_isoformat := λ n, "2024-01-01T00:00:0" +:+ pretty n |}.

(** An environment whose raster reader rejects what is not a TIFF. *)
Definition strict : Env (float * float * float * float) string unit :=
  {| float_str := integral_str;
     decode_replace := id;
     geom_bounds := id;
     wcs_connect := λ _ _, None;
     wcs_getCoverage := getCoverage;
     tmp_write := λ _ _, None;
     Raster_load := λ content,
       if String.prefix "II*" content then inr content
       else inl (Exn "RasterioIOError" "not recognized as a supported file format");
     Vector_create_mask := λ _ _, inr ();
     mask_invert := id;
     Raster_set_mask := λ r _, inr r;
     Raster_save := λ r _, inr r;
     sleep_raises := sleep_overflow;
     now_isoformat := λ n, "2024-01-01T00:00:0" +:+ pretty n |}.

(** The notebook's session: the polygon with [minx = 0] gets an XML error
    document, every other one a tile. *)
Definition nb_getCoverage (id : string) (bbox : float * float * float * float)
    (crs format : string) (width height : sjekker_features.pynum)
    : result (result string) :=
  if is_zero bbox.1.1.1 then inr (inr "<ServiceExceptionReport/>")
  else inr (inr "II*tile").

(** Polygons 4 and 6 are served; polygon 5, between them, is not. *)
Definition nb_gdf : list (Z * (float * float * float * float)) :=
  [(4, (lit 1 0, lit 0 0, lit 10 0, lit 10 0));
   (5, (lit 0 0, lit 0 0, lit 10 0, lit 10 0));
   (6, (lit 1 0, lit 0 0, lit 10 0, lit 10 0))].

(** The notebook's cell on [gdf] in the strict environment. *)
Definition nb_cell (gdf : list (Z * (float * float * float * float))) : M () :=
  notebook.download_cell strict nb_getCoverage gdf "dtm" "out" "/tmp".

Definition nb_row (row : Row) : M () :=
  notebook.download_row strict nb_getCoverage nb_gdf "dtm" "out" "/tmp" row.

End Demo.

(** * Properties *)

(** ** Request planning *)

Lemma max1_int_floor s m e :
  Z.max 1 (cond_Zopp s (Z.shiftl (Zpos m) e))
  = Z.max 1 (Z.shiftl (cond_Zopp s (Zpos m)) e).
Proof.
  destruct s; unfold cond_Zopp; [|done].
  pose proof (proj2 (Z.shiftl_nonneg (Z.pos m) e) ltac:(lia)).
  pose proof (proj2 (Z.shiftl_neg (- Z.pos m) e) ltac:(lia)).
  lia.
Qed.

Lemma pixel_extent_floor hi lo resolution :
  pixel_extent hi lo resolution = Spec.pixel_extent hi lo resolution.
Proof.
  unfold pixel_extent, Spec.pixel_extent.
  destruct (py_truediv _ _) as [e|q]; simpl; [done|].
  destruct q as [s| s | |s m e]; try done.
  unfold py_int, Spec.py_floor, Spec.floor, rbind. by rewrite max1_int_floor.
Qed.


Lemma floor_is_floor s m e :
  let a := cond_Zopp s (Zpos m) in
  (0 ≤ e → Spec.floor (S754_finite s m e) = a * 2 ^ e)
  ∧ (e < 0 → Spec.floor (S754_finite s m e) = a `div` 2 ^ (- e)).
Proof.
  simpl. split; intros He.
  - by apply Z.shiftl_mul_pow2.
  - apply Z.shiftl_div_pow2. lia.
Qed.

Lemma pixel_dims_floor row resolution :
  pixel_dims row resolution = Spec.pixel_dims row resolution.
Proof. unfold pixel_dims, Spec.pixel_dims. by rewrite !pixel_extent_floor. Qed.

Lemma pixel_extent_finite hi lo resolution :
  is_zero resolution = false →
  is_finite (fdiv (fsub hi lo) resolution) = true →
  pixel_extent hi lo resolution
  = inr (Z.max 1 (Spec.floor (fdiv (fsub hi lo) resolution))).
Proof.
  intros Hz Hfin. rewrite pixel_extent_floor.
  unfold Spec.pixel_extent, py_truediv. rewrite Hz. simpl.
  by destruct (fdiv _ _).
Qed.

Lemma positive_not_zero x : flt (S754_zero false) x = true → is_zero x = false.
Proof. by destruct x. Qed.

(** C4. For every bounding box without a NaN coordinate and every positive
    resolution, the planner computes what the formula
    [max(1, floor((max - min) / resolution))] computes, in both dimensions:
    the same integers whenever the quotients are finite floats, and the same
    failure when a quotient has no floor. *)
Theorem C4_pixel_dims_floor (row : Row) (resolution : float) :
  existsb isnan [minx row; miny row; maxx row; maxy row] = false →
  flt (S754_zero false) resolution = true →
  let qx := fdiv (fsub (maxx row) (minx row)) resolution in
  let qy := fdiv (fsub (maxy row) (miny row)) resolution in
  pixel_dims row resolution = Spec.pixel_dims row resolution
  ∧ (is_finite qx = true → is_finite qy = true →
     pixel_dims row resolution
     = inr (Z.max 1 (Spec.floor qx), Z.max 1 (Spec.floor qy))).
Proof.
  intros _ Hpos qx qy. split; [apply pixel_dims_floor|].
  intros Hx Hy. apply positive_not_zero in Hpos.
  unfold pixel_dims. by rewrite !pixel_extent_finite.
Qed.

Lemma C4_pixel_dims_floor_witness :
  pixel_dims Demo.small_row (lit 1 0) = Spec.pixel_dims Demo.small_row (lit 1 0)
  ∧ pixel_dims Demo.small_row (lit 1 0) = inr (10, 10).
Proof.
  destruct (C4_pixel_dims_floor Demo.small_row (lit 1 0)) as [H1 H2];
    [reflexivity | reflexivity |].
  split; [exact H1 |]. rewrite H2; reflexivity.
Defined.

(** ** The notebook against the command-line planner *)

(** C8. On the box with [minx = miny = 0.5] and [maxx = maxy = 10.75] the
    notebook's cell asks for 9.5 by 9.5 pixels, floats, where the
    command-line planner at resolution 1.0 asks for 10 by 10. *)
Theorem C8_notebook_dims_differ :
  let row := mkRow 0 (lit 1 (-1)) (lit 1 (-1)) (lit 43 (-2)) (lit 43 (-2)) in
  sjekker_features.pixel_dims row
  = inr (sjekker_features.PyFlt (lit 19 (-1)), sjekker_features.PyFlt (lit 19 (-1)))
  ∧ pixel_dims row (lit 1 0) = inr (10, 10).
Proof. split; reflexivity. Qed.

(** ** The per-thread session *)

(** C9. When the first call of [get_wcs_connection] on a thread, made with
    [u1], returns a session, a later call on that thread with any [u2]
    returns that same session, built for [u1], and constructs nothing. *)
Theorem C9_connection_ignores_later_url {geometry raster mask}
    (E : Env geometry raster mask) (tid : nat) (u1 u2 : string)
    (w w1 : world) (wcs : WebCoverageService) :
  thread_local w !! tid = None →
  get_wcs_connection E tid u1 w = (inr wcs, w1) →
  get_wcs_connection E tid u2 w1 = (inr wcs, w1) ∧ service_url wcs = u1.
Proof.
  unfold get_wcs_connection. intros -> Hfirst.
  destruct (wcs_connect E u1 "1.0.0"); simplify_eq/=.
  by rewrite lookup_insert_eq.
Qed.

Lemma C9_connection_ignores_later_url_witness :
  let w1 := mkWorld ∅ {[ 0%nat := mkWCS "http://one" "1.0.0" ]}
                    [EvConnect "http://one" "1.0.0"] in
  get_wcs_connection Demo.env 0 "http://two" w1 = (inr (mkWCS "http://one" "1.0.0"), w1)
  ∧ service_url (mkWCS "http://one" "1.0.0") = "http://one".
Proof.
  apply (C9_connection_ignores_later_url Demo.env 0 "http://one" "http://two"
           Demo.empty_world); reflexivity.
Defined.

(** ** One job *)

(** Symbolic execution of a job: unfold the monadic code and split on
    every test it makes. *)
Ltac unfold_job :=
  cbv [download_single_polygon download_body stage_temp mask_and_save unlink
       time_sleep get_wcs_connection try_finally mbind M_bind mret M_ret raise
       lift emit modify_fs] in *.

Ltac run_job := unfold_job; repeat (case_match; simplify_eq/=).

Ltac solve_fs :=
  apply map_eq; intros ?;
  repeat (rewrite lookup_delete || rewrite lookup_insert);
  repeat case_decide; simplify_eq; done.

Section job.
Context {geometry raster mask : Type} (E : Env geometry raster mask).
Context (tid : nat) (tmp : string) (idx : Z) (row : Row)
        (polygon_gdf : list (Z * geometry))
        (wcs_url coverage_id output_folder : string)
        (sleep_duration resolution : float) (max_pixels : Z).

Let job := download_single_polygon E tid tmp idx row polygon_gdf wcs_url
             coverage_id output_folder sleep_duration resolution max_pixels.
Let output_file := output_path E output_folder resolution idx.

Lemma job_index w : index (job w).1 = idx.
Proof. subst job. run_job; done. Qed.

(** What a job can do to the files. *)
Lemma job_fs_cases w r w' :
  fs w !! tmp = None → tmp ≠ output_file → job w = (r, w') →
  (is_Some (fs w !! output_file)
     ∧ r = mkResult idx true true None None ∧ w' = w)
  ∨ (fs w !! output_file = None
     ∧ (∃ ty msg, r = mkResult idx false false (Some ty) (Some msg))
     ∧ (fs w' = fs w
        ∨ fs w' = <[tmp := EmptyString]> (fs w) ∧ (∃ d, is_Some (tmp_write E tmp d))
        ∨ (∃ bytes, fs w' = <[output_file := bytes]> (fs w))
          ∧ flt (S754_zero false) sleep_duration = true
          ∧ is_Some (sleep_raises E sleep_duration)))
  ∨ (fs w !! output_file = None
     ∧ r = mkResult idx true false None None
     ∧ ∃ bytes, fs w' = <[output_file := bytes]> (fs w)).
Proof.
  subst job output_file. intros Hfresh Hne Hrun.
  destruct (fs w !! output_path E output_folder resolution idx) as [c|] eqn:Hout.
  { left. unfold download_single_polygon in Hrun. rewrite Hout in Hrun.
    rewrite bool_decide_eq_true_2 in Hrun by eauto. by simplify_eq. }
  right. unfold download_single_polygon in Hrun. rewrite Hout in Hrun.
  rewrite bool_decide_eq_false_2 in Hrun by (by intros []).
  run_job.
  all: try (left; split; [done|]; split; [by eauto|]; by left).
  all: try (left; split; [done|]; split; [by eauto|]; left; simpl; solve_fs).
  all: try (right; split; [done|]; split; [done|]; eexists; simpl; solve_fs).
  all: try (left; split; [done|]; split; [by eauto|]; right; left; split; [done|];
            match goal with
            | H : tmp_write E _ ?d = Some _ |- _ => exists d; rewrite H; eauto
            end).
  all: left; split; [done|]; split; [by eauto|]; right; right;
    split_and!; [eexists; simpl; solve_fs | done | by eauto].
Qed.

End job.

Lemma take500_prefix n s :
  ∃ tail, s = substring 0 n s +:+ tail
          ∧ String.length (substring 0 n s) = Nat.min n (String.length s).
Proof.
  revert s. induction n as [|n IH]; intros s.
  - exists s. by destruct s.
  - destruct s as [|c s]; [by exists EmptyString|].
    destruct (IH s) as (tail & Heq & Hlen). exists tail.
    split; [|by simpl; rewrite Hlen].
    change (String c s = String c (substring 0 n s +:+ tail)). congruence.
Qed.

(** X15. What a job does to the files. A job whose output file exists is
    skipped and leaves the world, files and trace, as it was; a successful
    job adds exactly the output file; a failed job leaves the files as they
    were, except in two cases: when the write of its temporary file raised,
    the empty temporary file stays, and when the sleep after the save
    raised, the output file stays; no existing file is ever changed. The
    temporary name is one [NamedTemporaryFile] can hand out: it names no
    existing file and, as it starts with [tmp] where an output name starts
    with [D_], is not the output path. *)
Theorem job_file_effects {geometry raster mask}
    (E : Env geometry raster mask) (tid : nat) (tmp : string) (idx : Z)
    (row : Row) (polygon_gdf : list (Z * geometry))
    (wcs_url coverage_id output_folder : string)
    (sleep_duration resolution : float) (max_pixels : Z)
    (w w' : world) (r : DownloadResult) :
  let output_file := output_path E output_folder resolution idx in
  fs w !! tmp = None →
  tmp ≠ output_file →
  download_single_polygon E tid tmp idx row polygon_gdf wcs_url coverage_id
    output_folder sleep_duration resolution max_pixels w = (r, w') →
  (is_Some (fs w !! output_file) → classify r = Skipped ∧ w' = w)
  ∧ (classify r = Skipped → w' = w)
  ∧ (classify r = Success →
       fs w !! output_file = None
       ∧ ∃ bytes, fs w' = <[output_file := bytes]> (fs w))
  ∧ (classify r = Failed →
       fs w !! output_file = None
       ∧ (fs w' = fs w
          ∨ fs w' = <[tmp := EmptyString]> (fs w)
            ∧ (∃ d, is_Some (tmp_write E tmp d))
          ∨ (∃ bytes, fs w' = <[output_file := bytes]> (fs w))
            ∧ flt (S754_zero false) sleep_duration = true
            ∧ is_Some (sleep_raises E sleep_duration)))
  ∧ (∀ p c, fs w !! p = Some c → fs w' !! p = Some c).
Proof.
  intros output_file Hfresh Hne Hrun.
  destruct (job_fs_cases E _ _ _ _ _ _ _ _ _ _ _ _ _ _ Hfresh Hne Hrun)
    as [(Hex & -> & ->) | [(Hout & (ty & msg & ->) & Hfs) | (Hout & -> & bytes & Hfs)]];
    subst output_file.
  - by split_and!.
  - split_and!; try done.
    + intros [c Hc]; congruence.
    + intros p c Hp.
      destruct Hfs as [-> | [[-> _] | [[bytes ->] _]]]; [done|..];
        (rewrite lookup_insert_ne; [done | congruence]).
  - split_and!; try done.
    + intros [c Hc]; congruence.
    + intros _. split; [done|]. by exists bytes.
    + intros p c Hp. rewrite Hfs, lookup_insert_ne; [done | congruence].
Qed.

Lemma job_file_effects_witness :
  let w := Demo.empty_world in
  let run := download_single_polygon Demo.env 0 "/tmp/tmpa1.tif" 1 Demo.small_row
               [(1, (lit 0 0, lit 0 0, lit 10 0, lit 10 0))] "http://wcs" "dtm" "out"
               (lit 0 0) (lit 1 0) 100 w in
  fs w !! "/tmp/tmpa1.tif" = None
  ∧ classify run.1 = Success
  ∧ fs run.2 = {[ "out/D_1.0m_1.tif" := "II*tile" ]}.
Proof.
  intros w run.
  pose proof (job_file_effects Demo.env 0 "/tmp/tmpa1.tif" 1 Demo.small_row
                [(1, (lit 0 0, lit 0 0, lit 10 0, lit 10 0))] "http://wcs" "dtm" "out"
                (lit 0 0) (lit 1 0) 100 w run.2 run.1
                eq_refl ltac:(by vm_compute) eq_refl) as (_ & _ & Hsucc & _).
  split; [reflexivity|]. split; [reflexivity|].
  destruct (Hsucc eq_refl) as (_ & bytes & Hfs). reflexivity.
Defined.

(** C2. The claim fails on the code for a failed job. Run with a sleep of
    infinite length ([--sleep inf]), the job for the 10 by 10 box downloads,
    masks and saves its tile, then [time.sleep] raises [OverflowError]
    inside the [try]: the job returns a failure, and the output directory,
    empty before, holds one output file. *)
Theorem C2_failed_job_leaves_output :
  let run := download_single_polygon Demo.env 0 "/tmp/tmpa1.tif" 1 Demo.small_row
               [(1, (lit 0 0, lit 0 0, lit 10 0, lit 10 0))] "http://wcs" "dtm" "out"
               (S754_infinity false) (lit 1 0) 100 Demo.empty_world in
  run.1 = mkResult 1 false false (Some "OverflowError")
            (Some "timestamp too large to convert to C _PyTime_t")
  ∧ classify run.1 = Failed
  ∧ fs Demo.empty_world = ∅
  ∧ fs run.2 = {[ "out/D_1.0m_1.tif" := "II*tile" ]}.
Proof. by split_and!. Qed.

(** The masking block: whatever the collaborators do, the [finally]
    clause has removed the temporary file when the block is left, and the
    removal is the last thing the block did. *)
Lemma masking_block_releases {geometry raster mask}
    (E : Env geometry raster mask) (polygon_gdf : list (Z * geometry))
    (idx : Z) (temp_path output_file : string) (w w' : world) (r : result ()) :
  try_finally (mask_and_save E polygon_gdf idx temp_path output_file)
              (unlink temp_path) w = (r, w') →
  fs w' !! temp_path = None
  ∧ ∃ evs, trace w' = (trace w ++ evs)%list ∧ last evs = Some (EvUnlink temp_path).
Proof.
  intros Hrun. run_job.
  all: split; [by rewrite lookup_delete_eq|].
  all: rewrite <-?app_assoc; eexists; split; reflexivity.
Qed.

(** X22. The masking stage always releases the temporary file: in every run
    of a job that got as far as loading the raster, whether it then
    succeeded, failed in masking, failed in the final write or failed in the
    sleep, the temporary file has been unlinked and is gone when the job
    returns; a job that never created the file leaves that path as it was. *)
Theorem masking_stage_releases_temp_file {geometry raster mask}
    (E : Env geometry raster mask) (tid : nat) (tmp : string) (idx : Z)
    (row : Row) (polygon_gdf : list (Z * geometry))
    (wcs_url coverage_id output_folder : string)
    (sleep_duration resolution : float) (max_pixels : Z)
    (w w' : world) (r : DownloadResult) :
  download_single_polygon E tid tmp idx row polygon_gdf wcs_url coverage_id
    output_folder sleep_duration resolution max_pixels w = (r, w') →
  ∃ evs, trace w' = (trace w ++ evs)%list
    ∧ (EvRasterLoad tmp ∈ evs → EvUnlink tmp ∈ evs ∧ fs w' !! tmp = None)
    ∧ (EvTempCreate tmp ∉ evs → fs w' !! tmp = fs w !! tmp).
Proof.
  intros Hrun. run_job.
  all: rewrite <-?app_assoc.
  all: first [ exists []; rewrite app_nil_r; split; [reflexivity|]
             | eexists; split; [reflexivity|] ].
  all: simpl; rewrite ?elem_of_cons, ?elem_of_nil, ?lookup_delete_eq.
  all: split; [ intros Hin;
                first [ split; [solve [repeat first [by left | right]] | done]
                      | by intuition discriminate ]
              | intros Hnot; first [ done | exfalso; apply Hnot; tauto ] ].
Qed.

Lemma masking_stage_releases_temp_file_witness :
  let run := download_single_polygon Demo.env 0 "/tmp/tmpa1.tif" 1 Demo.small_row
               [(1, (lit 0 0, lit 0 0, lit 10 0, lit 10 0))] "http://wcs" "dtm" "out"
               (lit 0 0) (lit 1 0) 100 Demo.empty_world in
  ∃ evs, trace run.2 = ([] ++ evs)%list
    ∧ (EvRasterLoad "/tmp/tmpa1.tif" ∈ evs →
       EvUnlink "/tmp/tmpa1.tif" ∈ evs ∧ fs run.2 !! "/tmp/tmpa1.tif" = None)
    ∧ (EvTempCreate "/tmp/tmpa1.tif" ∉ evs →
       fs run.2 !! "/tmp/tmpa1.tif" = (∅ : gmap string string) !! "/tmp/tmpa1.tif").
Proof.
  exact (masking_stage_releases_temp_file Demo.env 0 "/tmp/tmpa1.tif" 1 Demo.small_row
           [(1, (lit 0 0, lit 0 0, lit 10 0, lit 10 0))] "http://wcs" "dtm" "out"
           (lit 0 0) (lit 1 0) 100 Demo.empty_world _ _ eq_refl).
Defined.

(** Outside the masking stage: when the write of the temporary file itself
    raises, the job fails and the file the [with] block created stays. *)
Lemma temp_write_failure_leaves_file {geometry raster mask}
    (E : Env geometry raster mask) (tmp data : string) (e : exn) (w : world) :
  tmp_write E tmp data = Some e →
  ∃ w', stage_temp E tmp data w = (inl e, w')
        ∧ fs w' !! tmp = Some EmptyString.
Proof.
  intros Hfail. eexists. unfold stage_temp.
  cbv [mbind M_bind raise emit modify_fs]. rewrite Hfail.
  split; [reflexivity|]. simpl. by rewrite lookup_insert_eq.
Qed.

(** C7. The claim fails on the code when the staging write itself fails.
    On a full disk the [with] block creates the temporary file, [tmp.write]
    raises [OSError] before the [try]/[finally] is entered, the job returns a
    failure, and the empty temporary file is still there: it was never
    unlinked. *)
Theorem C7_failed_staging_leaves_temp_file :
  let run := download_single_polygon Demo.disk_full 0 "/tmp/tmpa1.tif" 1
               Demo.small_row [(1, (lit 0 0, lit 0 0, lit 10 0, lit 10 0))]
               "http://wcs" "dtm" "out" (lit 0 0) (lit 1 0) 100 Demo.empty_world in
  run.1 = mkResult 1 false false (Some "OSError")
            (Some "[Errno 28] No space left on device")
  ∧ fs Demo.empty_world !! "/tmp/tmpa1.tif" = None
  ∧ fs run.2 !! "/tmp/tmpa1.tif" = Some EmptyString
  ∧ trace run.2
    = [EvConnect "http://wcs" "1.0.0";
       EvGetCoverage (mkWCS "http://wcs" "1.0.0")
         (mkRequest "dtm" (lit 0 0, lit 0 0, lit 10 0, lit 10 0) "EPSG:25833"
            "GeoTIFF" 10 10);
       EvRead; EvTempCreate "/tmp/tmpa1.tif"].
Proof. by split_and!. Qed.

(** ** Failures of a job *)

(** C3 read literally fails: for the single polygon 7, whose bounds hold a
    NaN, the record that goes to the log has [error_type] ["ValueError"],
    not ["InvalidGeometry"]. *)
Lemma C3_counterexample :
  let failed := (Demo.process Demo.nan_gdf "dtm" Demo.empty_world).1.2 in
  fp_error_type <$> failed = ["ValueError"]
  ∧ ¬ Forall (λ fp, fp_error_type fp = "InvalidGeometry") failed.
Proof.
  split; [reflexivity|]. intros H. vm_compute in H.
  apply Forall_cons_1 in H as [H _]. discriminate H.
Qed.

(** C3, as the code has it. A job whose bounds contain a NaN and whose
    output file does not exist fails before anything else happens: the
    world, files and trace alike, is unchanged, so no session is built and
    no request sent. The result carries the exception's class name,
    [ValueError], and so does the record the aggregation loop appends and
    the [error_type] field of its row in the log. *)
Theorem C3_nan_bounds_fail_as_ValueError {geometry raster mask}
    (E : Env geometry raster mask) (tid : nat) (tmp : string) (idx : Z)
    (row : Row) (polygon_gdf : list (Z * geometry))
    (wcs_url coverage_id output_folder : string)
    (sleep_duration resolution : float) (max_pixels : Z)
    (w : world) (t : tally) :
  existsb isnan [minx row; miny row; maxx row; maxy row] = true →
  fs w !! output_path E output_folder resolution idx = None →
  let r := mkResult idx false false (Some "ValueError") (Some (nan_message idx)) in
  let fp := mkFailed idx (minx row) (miny row) (maxx row) (maxy row)
              "ValueError" (nan_message idx) (now_isoformat E (tick t)) in
  download_single_polygon E tid tmp idx row polygon_gdf wcs_url coverage_id
    output_folder sleep_duration resolution max_pixels w = (r, w)
  ∧ failed_polygons (aggregate E t (row, r)) = (failed_polygons t ++ [fp])%list
  ∧ csv.field <$> fields_of E fp !! 5%nat = Some "ValueError".
Proof.
  intros Hnan Hout r fp. split_and!; [|done..].
  unfold download_single_polygon. rewrite Hout.
  rewrite bool_decide_eq_false_2 by (by intros []).
  unfold_job. by rewrite Hnan.
Qed.

Lemma C3_nan_bounds_fail_as_ValueError_witness :
  download_single_polygon Demo.env 0 "/tmp/tmpa1.tif" 7 Demo.nan_row Demo.nan_gdf
    "http://wcs" "dtm" "out" (lit 0 0) (lit 1 0) 100 Demo.empty_world
  = (mkResult 7 false false (Some "ValueError")
       (Some "Invalid geometry bounds (NaN values) for polygon 7"),
     Demo.empty_world).
Proof.
  apply (C3_nan_bounds_fail_as_ValueError Demo.env 0 "/tmp/tmpa1.tif" 7
           Demo.nan_row Demo.nan_gdf "http://wcs" "dtm" "out" (lit 0 0) (lit 1 0)
           100 Demo.empty_world (mkTally 0 0 0 [] 0));
    reflexivity.
Defined.

(** C5 read literally fails: with resolution 1.0 and at most 100 pixels a
    side, the box 1000 units wide is planned at 1000 by 50 pixels and the
    job fails, but the kind it reports is ["ValueError"], not
    ["RequestTooLarge"], and on a thread without a session the session was
    built before the size was checked. *)
Lemma C5_counterexample :
  let run := download_single_polygon Demo.env 0 "/tmp/tmpa1.tif" 0 Demo.wide_row
               [(0, (lit 0 0, lit 0 0, lit 1000 0, lit 50 0))] "http://wcs" "dtm"
               "out" (lit 0 0) (lit 1 0) 100 Demo.empty_world in
  pixel_dims Demo.wide_row (lit 1 0) = inr (1000, 50)
  ∧ error_type run.1 = Some "ValueError"
  ∧ error_type run.1 ≠ Some "RequestTooLarge"
  ∧ trace run.2 = [EvConnect "http://wcs" "1.0.0"].
Proof. by split_and!. Qed.

(** A box exactly 1000 ground units wide is 1000 pixels wide at
    resolution 1.0. *)
Lemma width_of_1000_units hi lo :
  fsub hi lo = lit 1000 0 → pixel_extent hi lo (lit 1 0) = inr 1000.
Proof. unfold pixel_extent. by intros ->. Qed.

(** C5, as the code has it. When the planned width or height exceeds
    [max_pixels], the job fails with a [ValueError] whose message gives the
    computed width and height and the bound, and no coverage request is
    sent: all that can have happened before the check is that the worker
    thread built its session, which a thread that has one cached does not
    do again. *)
Theorem C5_oversize_fails_as_ValueError {geometry raster mask}
    (E : Env geometry raster mask) (tid : nat) (tmp : string) (idx : Z)
    (row : Row) (polygon_gdf : list (Z * geometry))
    (wcs_url coverage_id output_folder : string)
    (sleep_duration resolution : float) (max_pixels : Z)
    (w w1 : world) (wcs : WebCoverageService) (wd ht : Z) :
  fs w !! output_path E output_folder resolution idx = None →
  existsb isnan [minx row; miny row; maxx row; maxy row] = false →
  get_wcs_connection E tid wcs_url w = (inr wcs, w1) →
  pixel_dims row resolution = inr (wd, ht) →
  max_pixels < wd ∨ max_pixels < ht →
  download_single_polygon E tid tmp idx row polygon_gdf wcs_url coverage_id
    output_folder sleep_duration resolution max_pixels w
  = (mkResult idx false false (Some "ValueError")
       (Some ("Requested raster too large: " +:+ pretty wd +:+ "x" +:+ pretty ht
              +:+ " pixels. " +:+ "Max is " +:+ pretty max_pixels +:+ "x"
              +:+ pretty max_pixels +:+ ". "
              +:+ "Consider using a coarser resolution or increasing --max-pixels.")),
     w1)
  ∧ fs w1 = fs w
  ∧ (trace w1 = trace w ∨ trace w1 = (trace w ++ [EvConnect wcs_url "1.0.0"])%list)
  ∧ (is_Some (thread_local w !! tid) → w1 = w).
Proof.
  intros Hout Hnan Hconn Hdims Hbig.
  assert ((max_pixels <? wd) || (max_pixels <? ht) = true) as Hcheck.
  { apply orb_true_iff. destruct Hbig; [left | right]; by apply Z.ltb_lt. }
  split.
  - unfold download_single_polygon. rewrite Hout.
    rewrite bool_decide_eq_false_2 by (by intros []).
    unfold download_body.
    cbv [mbind M_bind mret M_ret raise lift].
    by rewrite Hnan, Hconn, Hdims, Hcheck.
  - unfold get_wcs_connection in Hconn.
    destruct (thread_local w !! tid) as [cached|] eqn:Hcached.
    + simplify_eq. split_and!; [done | by left | done].
    + destruct (wcs_connect E wcs_url "1.0.0"); simplify_eq.
      split_and!; [done | by right | by intros []].
Qed.

Lemma C5_oversize_fails_as_ValueError_witness :
  download_single_polygon Demo.env 0 "/tmp/tmpa1.tif" 0 Demo.wide_row
    [(0, (lit 0 0, lit 0 0, lit 1000 0, lit 50 0))] "http://wcs" "dtm"
    "out" (lit 0 0) (lit 1 0) 100 Demo.empty_world
  = (mkResult 0 false false (Some "ValueError")
       (Some ("Requested raster too large: 1000x50 pixels. Max is 100x100. "
              +:+ "Consider using a coarser resolution or increasing --max-pixels.")),
     mkWorld ∅ {[ 0%nat := mkWCS "http://wcs" "1.0.0" ]}
             [EvConnect "http://wcs" "1.0.0"]).
Proof.
  apply (C5_oversize_fails_as_ValueError Demo.env 0 "/tmp/tmpa1.tif" 0
           Demo.wide_row [(0, (lit 0 0, lit 0 0, lit 1000 0, lit 50 0))]
           "http://wcs" "dtm" "out" (lit 0 0) (lit 1 0) 100 Demo.empty_world
           _ (mkWCS "http://wcs" "1.0.0") 1000 50);
    [reflexivity | reflexivity | reflexivity | reflexivity | left; reflexivity].
Defined.

Lemma markup_starts rest : starts_with_markup (String "<" rest) = true.
Proof. unfold starts_with_markup. simpl. by destruct rest. Qed.

(** C6 read literally fails: the body ["<ServiceExceptionReport/>"] makes
    the job fail with kind ["ValueError"], not ["ServiceError"]. *)
Lemma C6_counterexample :
  let run := download_single_polygon Demo.env 0 "/tmp/tmpa1.tif" 1 Demo.small_row
               [(1, (lit 0 0, lit 0 0, lit 10 0, lit 10 0))] "http://wcs" "broken"
               "out" (lit 0 0) (lit 1 0) 100 Demo.empty_world in
  error_type run.1 = Some "ValueError"
  ∧ error_message run.1
    = Some "WCS returned error response: <ServiceExceptionReport/>"
  ∧ error_type run.1 ≠ Some "ServiceError".
Proof. by split_and!. Qed.

(** C6, as the code has it. When the body read from the service begins
    with ["<"], the job fails with a [ValueError] whose message is
    ["WCS returned error response: "] followed by the permissive decoding of
    the first 500 bytes of the body; after the request and the read nothing
    more happens: no temporary file, no masking, no output file. *)
Theorem C6_markup_body_fails_as_ValueError {geometry raster mask}
    (E : Env geometry raster mask) (tid : nat) (tmp : string) (idx : Z)
    (row : Row) (polygon_gdf : list (Z * geometry))
    (wcs_url coverage_id output_folder : string)
    (sleep_duration resolution : float) (max_pixels : Z)
    (w w1 : world) (wcs : WebCoverageService) (wd ht : Z) (rest : string) :
  let data := String "<" rest in
  let req := mkRequest coverage_id (minx row, miny row, maxx row, maxy row)
               "EPSG:25833" "GeoTIFF" wd ht in
  fs w !! output_path E output_folder resolution idx = None →
  existsb isnan [minx row; miny row; maxx row; maxy row] = false →
  get_wcs_connection E tid wcs_url w = (inr wcs, w1) →
  pixel_dims row resolution = inr (wd, ht) →
  wd ≤ max_pixels ∧ ht ≤ max_pixels →
  wcs_getCoverage E wcs req = inr (inr data) →
  ∃ w2,
    download_single_polygon E tid tmp idx row polygon_gdf wcs_url coverage_id
      output_folder sleep_duration resolution max_pixels w
    = (mkResult idx false false (Some "ValueError")
         (Some ("WCS returned error response: "
                +:+ decode_replace E (substring 0 500 data))),
       w2)
    ∧ fs w2 = fs w
    ∧ trace w2 = (trace w1 ++ [EvGetCoverage wcs req; EvRead])%list
    ∧ (∃ tail, data = substring 0 500 data +:+ tail)
    ∧ (String.length (substring 0 500 data) ≤ 500)%nat.
Proof.
  intros data req Hout Hnan Hconn Hdims [Hwd Hht] Hresp.
  assert ((max_pixels <? wd) || (max_pixels <? ht) = false) as Hcheck.
  { apply orb_false_iff. split; apply Z.ltb_ge; lia. }
  exists (log EvRead (log (EvGetCoverage wcs req) w1)).
  split_and!.
  - unfold download_single_polygon. rewrite Hout.
    rewrite bool_decide_eq_false_2 by (by intros []).
    unfold download_body.
    cbv [mbind M_bind mret M_ret raise lift emit].
    rewrite Hnan, Hconn, Hdims, Hcheck. fold req. rewrite Hresp.
    subst data. by rewrite markup_starts.
  - simpl. unfold get_wcs_connection in Hconn.
    destruct (thread_local w !! tid); [by simplify_eq|].
    by destruct (wcs_connect E wcs_url "1.0.0"); simplify_eq.
  - simpl. by rewrite <-app_assoc.
  - destruct (take500_prefix 500 data) as (tail & Heq & _). by exists tail.
  - destruct (take500_prefix 500 data) as (tail & _ & ->). lia.
Qed.

Lemma C6_markup_body_fails_as_ValueError_witness :
  ∃ w2,
    download_single_polygon Demo.env 0 "/tmp/tmpa1.tif" 1 Demo.small_row
      [(1, (lit 0 0, lit 0 0, lit 10 0, lit 10 0))] "http://wcs" "broken"
      "out" (lit 0 0) (lit 1 0) 100 Demo.empty_world
    = (mkResult 1 false false (Some "ValueError")
         (Some "WCS returned error response: <ServiceExceptionReport/>"), w2)
    ∧ fs w2 = ∅.
Proof.
  destruct (C6_markup_body_fails_as_ValueError Demo.env 0 "/tmp/tmpa1.tif" 1
              Demo.small_row [(1, (lit 0 0, lit 0 0, lit 10 0, lit 10 0))]
              "http://wcs" "broken" "out" (lit 0 0) (lit 1 0) 100
              Demo.empty_world
              (mkWorld ∅ {[ 0%nat := mkWCS "http://wcs" "1.0.0" ]}
                       [EvConnect "http://wcs" "1.0.0"])
              (mkWCS "http://wcs" "1.0.0") 10 10 "ServiceExceptionReport/>")
    as (w2 & Hrun & Hfs & _);
    [reflexivity | reflexivity | reflexivity | reflexivity
    | split; reflexivity || lia | reflexivity |].
  exists w2. split; [exact Hrun | exact Hfs].
Defined.

(** ** The orchestrator *)

Lemma of_kind_cons o r rs :
  of_kind o (r :: rs) = if decide (classify r = o) then r :: of_kind o rs else of_kind o rs.
Proof. unfold of_kind. by rewrite filter_cons. Qed.

Lemma count_cons o r rs :
  count o (r :: rs) = (if decide (classify r = o) then 1 else 0) + count o rs.
Proof. unfold count. rewrite of_kind_cons. case_decide; simpl; lia. Qed.

(** The three kinds partition the results. *)
Lemma count_total rs :
  count Success rs + count Skipped rs + count Failed rs = Z.of_nat (length rs).
Proof.
  induction rs as [|r rs IH]; [done|].
  rewrite !count_cons. simpl length.
  destruct (classify r); repeat case_decide; try done; lia.
Qed.

Lemma omap_fmap_compose {A B C} (f : B → option C) (h : A → B) (l : list A) :
  omap f (h <$> l) = omap (f ∘ h) l.
Proof.
  induction l as [|x l IH]; [done|].
  simpl. destruct (f (h x)); [f_equal|]; apply IH.
Qed.

(** Reading a list position by position gives the list back. *)
Lemma omap_lookup_seq {A B} (g : A → B) (l : list A) :
  omap (λ pos, g <$> l !! pos) (seq 0 (length l)) = g <$> l.
Proof.
  induction l as [|x l IH]; [done|].
  cbn [length seq]. rewrite <-fmap_S_seq.
  change (g <$> x :: l) with (g x :: (g <$> l)). rewrite <-IH.
  change (omap ?f (0%nat :: ?k)) with (g x :: omap f k).
  by rewrite omap_fmap_compose.
Qed.

Section orchestrator_facts.
Context {geometry raster mask : Type} (E : Env geometry raster mask).
Context (polygon_gdf : list (Z * geometry))
        (output_dir : string) (sleep_duration : float)
        (wcs_url coverage_id : string) (resolution : float) (max_pixels : Z).

Let rows := bounds_df E polygon_gdf.
Let step := run_job E polygon_gdf output_dir sleep_duration wcs_url coverage_id
              resolution max_pixels.

Lemma bounds_df_length : length rows = length polygon_gdf.
Proof. subst rows. unfold bounds_df. by rewrite length_fmap. Qed.

Lemma bounds_df_Index : Index <$> rows = polygon_gdf.*1.
Proof.
  subst rows. unfold bounds_df. rewrite <-list_fmap_compose.
  apply list_fmap_ext. intros _ [i g] _. simpl. by destruct (geom_bounds E g) as [[[? ?] ?] ?].
Qed.

(** A finished job is stored under its position and carries the index of
    the row at that position. *)
Lemma run_job_labelled st job :
  (∀ pos r, st.1 !! pos = Some r → ∃ row, rows !! pos = Some row ∧ index r = Index row) →
  ∀ pos r, (step st job).1 !! pos = Some r →
           ∃ row, rows !! pos = Some row ∧ index r = Index row.
Proof.
  intros Hst pos r. subst step. unfold run_job.
  destruct job as [[p tid] tmp]. fold rows.
  destruct (rows !! p) as [row|] eqn:Hrow; [|by apply Hst].
  destruct (download_single_polygon _ _ _ _ _ _ _ _ _ _ _ _ _) as [r' w'] eqn:Hrun.
  simpl. rewrite lookup_insert. case_decide as Hp; [|by apply Hst].
  intros [= <-]. subst pos. exists row. split; [done|].
  pose proof (job_index E tid tmp (Index row) row polygon_gdf wcs_url coverage_id
                output_dir sleep_duration resolution max_pixels st.2) as Hidx.
  by rewrite Hrun in Hidx.
Qed.

Lemma run_job_keeps st job pos :
  is_Some (st.1 !! pos) → is_Some ((step st job).1 !! pos).
Proof.
  intros Hpos. subst step. unfold run_job.
  destruct job as [[p tid] tmp]. fold rows.
  destruct (rows !! p) as [row|]; [|done].
  destruct (download_single_polygon _ _ _ _ _ _ _ _ _ _ _ _ _) as [r' w'].
  simpl. rewrite lookup_insert. by case_decide.
Qed.

Lemma run_job_stores st job :
  (job.1.1 < length rows)%nat → is_Some ((step st job).1 !! job.1.1).
Proof.
  intros Hlt. subst step. unfold run_job.
  destruct job as [[p tid] tmp]. fold rows. simpl in *.
  destruct (lookup_lt_is_Some_2 rows p Hlt) as [row ->].
  destruct (download_single_polygon _ _ _ _ _ _ _ _ _ _ _ _ _) as [r' w'].
  simpl. by rewrite lookup_insert_eq.
Qed.

Lemma run_jobs_labelled jobs st :
  (∀ pos r, st.1 !! pos = Some r → ∃ row, rows !! pos = Some row ∧ index r = Index row) →
  ∀ pos r, (foldl step st jobs).1 !! pos = Some r →
           ∃ row, rows !! pos = Some row ∧ index r = Index row.
Proof.
  revert st. induction jobs as [|job jobs IH]; intros st Hst; [done|].
  simpl. apply IH. by apply run_job_labelled.
Qed.

Lemma run_jobs_keeps jobs st pos :
  is_Some (st.1 !! pos) → is_Some ((foldl step st jobs).1 !! pos).
Proof.
  revert st. induction jobs as [|job jobs IH]; intros st Hst; [done|].
  simpl. apply IH. by apply run_job_keeps.
Qed.

Lemma run_jobs_covers jobs st pos :
  pos ∈ jobs.*1.*1 → (pos < length rows)%nat →
  is_Some ((foldl step st jobs).1 !! pos).
Proof.
  revert st. induction jobs as [|job jobs IH]; intros st Hin Hlt.
  - by apply elem_of_nil in Hin.
  - simpl in *. apply elem_of_cons in Hin as [-> | Hin].
    + apply run_jobs_keeps. by apply run_job_stores.
    + by apply IH.
Qed.

(** With every position finished, [as_completed] yields one pair for each
    position it is given, labelled with the row's index. *)
Lemma as_completed_indices s done :
  (∀ pos, pos ∈ yield_order s →
          ∃ row r, rows !! pos = Some row ∧ done !! pos = Some r
                   ∧ index r = Index row) →
  index <$> (as_completed E polygon_gdf s done).*2
  = omap (λ pos, Index <$> rows !! pos) (yield_order s).
Proof.
  unfold as_completed. fold rows.
  induction (yield_order s) as [|pos l IH]; intros Hall; [done|].
  destruct (Hall pos) as (row & r & Hrow & Hr & Hidx); [by left|].
  simpl. rewrite Hrow, Hr. simpl. rewrite Hidx. f_equal.
  apply IH. intros p Hp. apply Hall. by right.
Qed.

(** What the aggregation loop adds to its counters and its list. *)
Lemma aggregate_fold items t :
  let t' := foldl (aggregate E) t items in
  completed t' = completed t + count Success items.*2
  ∧ skipped_count t' = skipped_count t + count Skipped items.*2
  ∧ failed_count t' = failed_count t + count Failed items.*2
  ∧ fp_index <$> failed_polygons t'
    = ((fp_index <$> failed_polygons t) ++ (index <$> of_kind Failed items.*2))%list.
Proof.
  revert t. induction items as [|[row r] items IH]; intros t.
  - simpl. unfold count. simpl. rewrite app_nil_r. split_and!; (lia || done).
  - intros t'. subst t'.
    change (foldl (aggregate E) t ((row, r) :: items))
      with (foldl (aggregate E) (aggregate E t (row, r)) items).
    change (((row, r) :: items).*2) with (r :: items.*2).
    destruct (IH (aggregate E t (row, r))) as (Hc & Hs & Hf & Hl).
    rewrite Hc, Hs, Hf, Hl. rewrite !count_cons, of_kind_cons.
    unfold aggregate, classify.
    destruct (skipped r), (success r); repeat case_decide; try done; simpl;
      rewrite ?fmap_app, <-?app_assoc; split_and!; (lia || done).
Qed.

End orchestrator_facts.

(** C1. Under any schedule in which every submitted job runs once and is
    yielded once, the three counters [process_polygons] returns add up to
    the number of polygons; the results the loop receives carry exactly the
    indices of the frame, each as often as the frame has it (so none twice
    when the frame's indices are distinct); each counter is the number of
    results of its kind, a result being of one kind only; and the failure
    list has one record per failed result, in the order received. *)
Theorem C1_every_polygon_counted_once {geometry raster mask}
    (E : Env geometry raster mask) (polygon_gdf : list (Z * geometry))
    (output_dir : string) (workers : Z) (sleep_duration : float)
    (wcs_url coverage_id : string) (resolution : float) (max_pixels : Z)
    (s : schedule) (w w' : world)
    (completed skipped failed_count : Z) (failed : list FailedPolygon) :
  valid_schedule (length polygon_gdf) workers s →
  process_polygons E polygon_gdf output_dir sleep_duration wcs_url coverage_id
    resolution max_pixels s w = ((completed, skipped, failed_count, failed), w') →
  let results :=
    (as_completed E polygon_gdf s
       (run_jobs E polygon_gdf output_dir sleep_duration wcs_url coverage_id
          resolution max_pixels s w).1).*2 in
  completed + skipped + failed_count = Z.of_nat (length polygon_gdf)
  ∧ length results = length polygon_gdf
  ∧ index <$> results ≡ₚ polygon_gdf.*1
  ∧ (NoDup polygon_gdf.*1 → NoDup (index <$> results))
  ∧ completed = count Success results
  ∧ skipped = count Skipped results
  ∧ failed_count = count Failed results
  ∧ failed_count = Z.of_nat (length failed)
  ∧ fp_index <$> failed = index <$> of_kind Failed results.
Proof.
  intros (Hrun & Hyield & _) Hproc results.
  unfold process_polygons in Hproc.
  destruct (run_jobs _ _ _ _ _ _ _ _ _ _) as [done w1] eqn:Hjobs.
  simpl in results. injection Hproc as <- <- <- <- <-.
  destruct (aggregate_fold E (as_completed E polygon_gdf s done)
              (mkTally 0 0 0 [] 0)) as (Hc & Hs & Hf & Hl).
  simpl in Hc, Hs, Hf, Hl. fold results in Hc, Hs, Hf, Hl.
  assert (index <$> results ≡ₚ polygon_gdf.*1) as Hperm.
  { subst results. rewrite as_completed_indices.
    - rewrite Hyield, <-(bounds_df_length E), omap_lookup_seq.
      by rewrite bounds_df_Index.
    - intros pos Hpos. rewrite Hyield in Hpos.
      apply elem_of_seq in Hpos as [_ Hlt]. simpl in Hlt.
      rewrite <-(bounds_df_length E) in Hlt.
      assert (is_Some (done !! pos)) as [r Hr].
      { unfold run_jobs in Hjobs.
        pose proof (run_jobs_covers E polygon_gdf output_dir sleep_duration wcs_url
                      coverage_id resolution max_pixels (run_order s) (∅, w) pos) as Hcov.
        rewrite Hjobs in Hcov. apply Hcov; [|done].
        rewrite Hrun. apply elem_of_seq. rewrite <-(bounds_df_length E). lia. }
      unfold run_jobs in Hjobs.
      pose proof (run_jobs_labelled E polygon_gdf output_dir sleep_duration wcs_url
                    coverage_id resolution max_pixels (run_order s) (∅, w)) as Hlab.
      rewrite Hjobs in Hlab.
      destruct (Hlab ltac:(by simpl; intros ? ? ?%lookup_empty_Some) pos r Hr)
        as (row & Hrow & Hidx).
      by exists row, r. }
  assert (length results = length polygon_gdf) as Hlen.
  { apply Permutation_length in Hperm. by rewrite !length_fmap in Hperm. }
  pose proof (count_total results) as Htot.
  split_and!; try done; try lia.
  - intros Hnd. by rewrite Hperm.
  - apply (f_equal length) in Hl. rewrite !length_fmap in Hl.
    unfold count in Hf. lia.
Qed.

Lemma C1_every_polygon_counted_once_witness :
  let run := process_polygons Demo.env Demo.three_gdf "out" (lit 0 0) "http://wcs"
               "dtm" (lit 1 0) 100 Demo.three_jobs Demo.resumed_world in
  valid_schedule 3 2 Demo.three_jobs
  ∧ (run.1.1.1.1 + run.1.1.1.2 + run.1.1.2 = 3)%Z
  ∧ fp_index <$> run.1.2 = [7].
Proof.
  intros run.
  assert (valid_schedule 3 2 Demo.three_jobs) as Hvalid.
  { split_and!; [apply perm_swap | apply perm_swap | by repeat constructor]. }
  split; [exact Hvalid|].
  destruct (C1_every_polygon_counted_once Demo.env Demo.three_gdf "out" 2 (lit 0 0)
              "http://wcs" "dtm" (lit 1 0) 100 Demo.three_jobs Demo.resumed_world
              run.2 run.1.1.1.1 run.1.1.1.2 run.1.1.2 run.1.2 Hvalid eq_refl)
    as (Hsum & _ & _ & _ & _ & _ & _ & _ & Hfailed).
  split; [exact Hsum | exact Hfailed].
Defined.

(** ** The error log *)








(** * Further properties of the code *)

(** ** The planner *)

(** Whatever the box and the resolution, planned dimensions are at least
    one pixel. *)
Lemma pixel_dims_at_least_one row resolution wd ht :
  pixel_dims row resolution = inr (wd, ht) → 1 ≤ wd ∧ 1 ≤ ht.
Proof.
  unfold pixel_dims, pixel_extent, rbind. intros H.
  repeat case_match; simplify_eq; lia.
Qed.

(** ** One job, continued *)

Section job_facts.
Context {geometry raster mask : Type} (E : Env geometry raster mask).
Context (tid : nat) (tmp : string) (idx : Z) (row : Row)
        (polygon_gdf : list (Z * geometry))
        (wcs_url coverage_id output_folder : string)
        (sleep_duration resolution : float) (max_pixels : Z).

Let job := download_single_polygon E tid tmp idx row polygon_gdf wcs_url
             coverage_id output_folder sleep_duration resolution max_pixels.
Let output_file := output_path E output_folder resolution idx.

(** A job writes to two paths only: its temporary file and its output. *)
Lemma job_frame w r w' p :
  job w = (r, w') → p ≠ tmp → p ≠ output_file → fs w' !! p = fs w !! p.
Proof.
  subst job output_file. intros Hrun Htmp Hout. run_job; try done.
  all: by rewrite ?lookup_delete_ne, ?lookup_insert_ne by done.
Qed.

(** A file that exists is kept, unless it is handed out as the temporary
    name. *)
Lemma job_keeps_existing w r w' p c :
  job w = (r, w') → p ≠ tmp → fs w !! p = Some c → fs w' !! p = Some c.
Proof.
  intros Hrun Htmp Hp.
  destruct (decide (p = output_path E output_folder resolution idx)) as [->|Hne].
  - unfold job, download_single_polygon in Hrun. rewrite Hp in Hrun.
    rewrite bool_decide_eq_true_2 in Hrun by eauto. by simplify_eq.
  - by rewrite (job_frame w r w' p Hrun Htmp Hne).
Qed.

(** A job that does not fail leaves its output file in place, provided the
    temporary name is not the output path. *)
Lemma job_output_present w r w' :
  job w = (r, w') → tmp ≠ output_file → classify r ≠ Failed →
  is_Some (fs w' !! output_file).
Proof.
  subst job output_file. intros Hrun Hne Hok.
  destruct (fs w !! output_path E output_folder resolution idx) as [c|] eqn:Hout.
  { unfold download_single_polygon in Hrun. rewrite Hout in Hrun.
    rewrite bool_decide_eq_true_2 in Hrun by eauto. simplify_eq. by rewrite Hout. }
  unfold download_single_polygon in Hrun. rewrite Hout in Hrun.
  rewrite bool_decide_eq_false_2 in Hrun by (by intros []).
  run_job; try done.
  all: rewrite lookup_delete_ne by done; by rewrite lookup_insert_eq.
Qed.

End job_facts.

(** Finishing a goal about the events a run appended. *)
Ltac new_events :=
  rewrite <-?app_assoc;
  first [ exists []; rewrite app_nil_r; split; [reflexivity|]
        | eexists; split; [reflexivity|] ].

(** X1. A job sends at most one coverage request. The request it sends goes
    through the session of the thread that runs the job, names the coverage
    and the row's bounding box in EPSG:25833 as GeoTIFF, and asks for the
    planned dimensions, which lie between 1 and [max_pixels]. *)
Theorem job_sends_one_bounded_request {geometry raster mask}
    (E : Env geometry raster mask) (tid : nat) (tmp : string) (idx : Z)
    (row : Row) (polygon_gdf : list (Z * geometry))
    (wcs_url coverage_id output_folder : string)
    (sleep_duration resolution : float) (max_pixels : Z)
    (w w' : world) (r : DownloadResult) :
  download_single_polygon E tid tmp idx row polygon_gdf wcs_url coverage_id
    output_folder sleep_duration resolution max_pixels w = (r, w') →
  ∃ evs, trace w' = (trace w ++ evs)%list
    ∧ (coverage_requests evs = []
       ∨ ∃ wcs wd ht,
           coverage_requests evs
           = [(wcs, mkRequest coverage_id (minx row, miny row, maxx row, maxy row)
                      "EPSG:25833" "GeoTIFF" wd ht)]
           ∧ thread_local w' !! tid = Some wcs
           ∧ pixel_dims row resolution = inr (wd, ht)
           ∧ 1 ≤ wd ≤ max_pixels ∧ 1 ≤ ht ≤ max_pixels).
Proof.
  intros Hrun. run_job.
  all: new_events.
  all: first [ by left | right; eexists _, _, _; split; [reflexivity|] ].
  all: match goal with
       | H : pixel_dims _ _ = inr _ |- _ =>
           pose proof (pixel_dims_at_least_one _ _ _ _ H) as [? ?]
       end.
  all: match goal with
       | H : _ || _ = false |- _ =>
           apply orb_false_iff in H as [?%Z.ltb_ge ?%Z.ltb_ge]
       end.
  all: simpl; rewrite ?lookup_insert_eq; split_and!; done || lia.
Qed.

(** X2. A job calls [time.sleep] at most once, with [sleep_duration]. A
    skipped job never calls it; a successful job has called it exactly when
    [sleep_duration] is positive; a failed job has called it only when the
    sleep itself raised, after a positive duration was passed and the output
    had been saved, and then the failure it reports is the sleep's. *)
Theorem job_sleeps_only_after_save {geometry raster mask}
    (E : Env geometry raster mask) (tid : nat) (tmp : string) (idx : Z)
    (row : Row) (polygon_gdf : list (Z * geometry))
    (wcs_url coverage_id output_folder : string)
    (sleep_duration resolution : float) (max_pixels : Z)
    (w w' : world) (r : DownloadResult) :
  download_single_polygon E tid tmp idx row polygon_gdf wcs_url coverage_id
    output_folder sleep_duration resolution max_pixels w = (r, w') →
  ∃ evs, trace w' = (trace w ++ evs)%list
    ∧ (classify r = Skipped → sleeps evs = [])
    ∧ (classify r = Success →
         sleeps evs
         = if flt (S754_zero false) sleep_duration then [sleep_duration] else [])
    ∧ (classify r = Failed →
         sleeps evs = []
         ∨ sleeps evs = [sleep_duration]
           ∧ flt (S754_zero false) sleep_duration = true
           ∧ EvSave (output_path E output_folder resolution idx) ∈ evs
           ∧ ∃ e, sleep_raises E sleep_duration = Some e
                  ∧ error_type r = Some (exn_type e)
                  ∧ error_message r = Some (exn_msg e)).
Proof.
  intros Hrun. run_job.
  all: new_events.
  all: simpl; split_and!; intros Hkind; try discriminate Hkind.
  all: repeat match goal with H : flt _ _ = _ |- _ => rewrite H end.
  all: first [ done | by left | right ].
  all: split_and!; [done | done | | by eauto].
  all: rewrite ?elem_of_cons; solve [repeat first [by left | right]].
Qed.

(** X3. A job changes the cached sessions in one way at most: it stores the
    session it built for its own thread when that thread had none. Sessions
    of other threads, and a session the thread already has, stay. *)
Theorem job_touches_own_session_only {geometry raster mask}
    (E : Env geometry raster mask) (tid : nat) (tmp : string) (idx : Z)
    (row : Row) (polygon_gdf : list (Z * geometry))
    (wcs_url coverage_id output_folder : string)
    (sleep_duration resolution : float) (max_pixels : Z)
    (w w' : world) (r : DownloadResult) :
  download_single_polygon E tid tmp idx row polygon_gdf wcs_url coverage_id
    output_folder sleep_duration resolution max_pixels w = (r, w') →
  thread_local w' = thread_local w
  ∨ thread_local w !! tid = None
    ∧ thread_local w' = <[tid := mkWCS wcs_url "1.0.0"]> (thread_local w).
Proof. intros Hrun. run_job; (by left) || (by right). Qed.

(** X4. A result carries an error type and a message exactly when it is a
    failure, and always the index the job was given. *)
Theorem job_result_shape {geometry raster mask}
    (E : Env geometry raster mask) (tid : nat) (tmp : string) (idx : Z)
    (row : Row) (polygon_gdf : list (Z * geometry))
    (wcs_url coverage_id output_folder : string)
    (sleep_duration resolution : float) (max_pixels : Z)
    (w w' : world) (r : DownloadResult) :
  download_single_polygon E tid tmp idx row polygon_gdf wcs_url coverage_id
    output_folder sleep_duration resolution max_pixels w = (r, w') →
  index r = idx
  ∧ match classify r with
    | Failed => success r = false
                ∧ is_Some (error_type r) ∧ is_Some (error_message r)
    | _ => success r = true ∧ error_type r = None ∧ error_message r = None
    end.
Proof. intros Hrun. run_job; by eauto. Qed.

Lemma job_sends_one_bounded_request_witness :
  ∃ evs, trace (Demo.small_job "dtm" (lit 1 0) Demo.empty_world).2 = ([] ++ evs)%list
    ∧ (coverage_requests evs = []
       ∨ ∃ wcs wd ht,
           coverage_requests evs
           = [(wcs, mkRequest "dtm" (lit 0 0, lit 0 0, lit 10 0, lit 10 0)
                      "EPSG:25833" "GeoTIFF" wd ht)]
           ∧ thread_local (Demo.small_job "dtm" (lit 1 0) Demo.empty_world).2 !! 0%nat
             = Some wcs
           ∧ pixel_dims Demo.small_row (lit 1 0) = inr (wd, ht)
           ∧ 1 ≤ wd ≤ 100 ∧ 1 ≤ ht ≤ 100).
Proof.
  exact (job_sends_one_bounded_request Demo.env 0 "/tmp/tmpa1.tif" 1 Demo.small_row
           [(1, (lit 0 0, lit 0 0, lit 10 0, lit 10 0))] "http://wcs" "dtm" "out"
           (lit 1 (-1)) (lit 1 0) 100 Demo.empty_world _ _ eq_refl).
Defined.

Lemma job_sleeps_only_after_save_witness :
  let run := download_single_polygon Demo.env 0 "/tmp/tmpa1.tif" 1 Demo.small_row
               [(1, (lit 0 0, lit 0 0, lit 10 0, lit 10 0))] "http://wcs" "dtm" "out"
               (S754_infinity false) (lit 1 0) 100 Demo.empty_world in
  ∃ evs, trace run.2 = ([] ++ evs)%list
    ∧ (classify run.1 = Skipped → sleeps evs = [])
    ∧ (classify run.1 = Success → sleeps evs = [S754_infinity false])
    ∧ (classify run.1 = Failed →
         sleeps evs = []
         ∨ sleeps evs = [S754_infinity false]
           ∧ true = true
           ∧ EvSave "out/D_1.0m_1.tif" ∈ evs
           ∧ ∃ e, Demo.sleep_overflow (S754_infinity false) = Some e
                  ∧ error_type run.1 = Some (exn_type e)
                  ∧ error_message run.1 = Some (exn_msg e)).
Proof.
  exact (job_sleeps_only_after_save Demo.env 0 "/tmp/tmpa1.tif" 1 Demo.small_row
           [(1, (lit 0 0, lit 0 0, lit 10 0, lit 10 0))] "http://wcs" "dtm" "out"
           (S754_infinity false) (lit 1 0) 100 Demo.empty_world _ _ eq_refl).
Defined.

Lemma job_touches_own_session_only_witness :
  let w' := (Demo.small_job "dtm" (lit 1 0) Demo.empty_world).2 in
  thread_local w' = ∅
  ∨ (∅ : gmap nat WebCoverageService) !! 0%nat = None
    ∧ thread_local w' = <[0%nat := mkWCS "http://wcs" "1.0.0"]> ∅.
Proof.
  exact (job_touches_own_session_only Demo.env 0 "/tmp/tmpa1.tif" 1 Demo.small_row
           [(1, (lit 0 0, lit 0 0, lit 10 0, lit 10 0))] "http://wcs" "dtm" "out"
           (lit 1 (-1)) (lit 1 0) 100 Demo.empty_world _ _ eq_refl).
Defined.

Lemma job_result_shape_witness :
  let r := (Demo.small_job "broken" (lit 1 0) Demo.empty_world).1 in
  index r = 1
  ∧ (success r = false ∧ is_Some (error_type r) ∧ is_Some (error_message r)).
Proof.
  exact (job_result_shape Demo.env 0 "/tmp/tmpa1.tif" 1 Demo.small_row
           [(1, (lit 0 0, lit 0 0, lit 10 0, lit 10 0))] "http://wcs" "broken" "out"
           (lit 1 (-1)) (lit 1 0) 100 Demo.empty_world _ _ eq_refl).
Defined.

(** X5. Resume: once a job has not failed, any later job for the same index,
    folder and resolution is skipped and changes nothing, on whatever thread
    and with whatever row, service or limits it runs. *)
Theorem job_rerun_is_skipped {geometry raster mask}
    (E : Env geometry raster mask) (tid tid2 : nat) (tmp tmp2 : string) (idx : Z)
    (row row2 : Row) (polygon_gdf polygon_gdf2 : list (Z * geometry))
    (wcs_url wcs_url2 coverage_id coverage_id2 output_folder : string)
    (sleep_duration sleep_duration2 resolution : float) (max_pixels max_pixels2 : Z)
    (w w' : world) (r : DownloadResult) :
  download_single_polygon E tid tmp idx row polygon_gdf wcs_url coverage_id
    output_folder sleep_duration resolution max_pixels w = (r, w') →
  tmp ≠ output_path E output_folder resolution idx →
  classify r ≠ Failed →
  download_single_polygon E tid2 tmp2 idx row2 polygon_gdf2 wcs_url2 coverage_id2
    output_folder sleep_duration2 resolution max_pixels2 w'
  = (mkResult idx true true None None, w').
Proof.
  intros Hrun Hne Hok.
  pose proof (job_output_present E _ _ _ _ _ _ _ _ _ _ _ _ _ _ Hrun Hne Hok) as Hout.
  unfold download_single_polygon. by rewrite bool_decide_eq_true_2.
Qed.

Lemma job_rerun_is_skipped_witness :
  let w' := (Demo.small_job "dtm" (lit 1 0) Demo.empty_world).2 in
  Demo.small_job "dtm" (lit 1 0) w' = (mkResult 1 true true None None, w').
Proof.
  intros w'.
  apply (job_rerun_is_skipped Demo.env 0 0 "/tmp/tmpa1.tif" "/tmp/tmpa1.tif" 1
           Demo.small_row Demo.small_row
           [(1, (lit 0 0, lit 0 0, lit 10 0, lit 10 0))]
           [(1, (lit 0 0, lit 0 0, lit 10 0, lit 10 0))] "http://wcs" "http://wcs"
           "dtm" "dtm" "out" (lit 1 (-1)) (lit 1 (-1)) (lit 1 0) 100 100
           Demo.empty_world w' (Demo.small_job "dtm" (lit 1 0) Demo.empty_world).1);
    [reflexivity | by vm_compute | by vm_compute].
Defined.

(** X6. Retry: a failed job either leaves no output file, and then a later
    job for the same index is not skipped: it runs the pipeline again; or its
    failure is the one [time.sleep] raised after the save, and then the output
    file is on disk and a later job for the same index is skipped. *)
Theorem failed_job_is_attempted_again {geometry raster mask}
    (E : Env geometry raster mask) (tid tid2 : nat) (tmp tmp2 : string) (idx : Z)
    (row row2 : Row) (polygon_gdf polygon_gdf2 : list (Z * geometry))
    (wcs_url wcs_url2 coverage_id coverage_id2 output_folder : string)
    (sleep_duration sleep_duration2 resolution : float) (max_pixels max_pixels2 : Z)
    (w w' : world) (r : DownloadResult) :
  download_single_polygon E tid tmp idx row polygon_gdf wcs_url coverage_id
    output_folder sleep_duration resolution max_pixels w = (r, w') →
  tmp ≠ output_path E output_folder resolution idx →
  classify r = Failed →
  let again := download_single_polygon E tid2 tmp2 idx row2 polygon_gdf2 wcs_url2
                 coverage_id2 output_folder sleep_duration2 resolution max_pixels2
                 w' in
  (fs w' !! output_path E output_folder resolution idx = None
   ∧ classify again.1 ≠ Skipped)
  ∨ (is_Some (fs w' !! output_path E output_folder resolution idx)
     ∧ flt (S754_zero false) sleep_duration = true
     ∧ (∃ e, sleep_raises E sleep_duration = Some e
             ∧ error_type r = Some (exn_type e))
     ∧ again = (mkResult idx true true None None, w')).
Proof.
  intros Hrun Hne Hfail again.
  assert (fs w' !! output_path E output_folder resolution idx = None
          ∨ (is_Some (fs w' !! output_path E output_folder resolution idx)
             ∧ flt (S754_zero false) sleep_duration = true
             ∧ (∃ e, sleep_raises E sleep_duration = Some e
                     ∧ error_type r = Some (exn_type e)))) as [Hout|(Hout & Hpos & He)].
  { clear again tid2 tmp2 row2 polygon_gdf2 wcs_url2 coverage_id2 sleep_duration2
      max_pixels2.
    destruct (fs w !! output_path E output_folder resolution idx) as [c|] eqn:Hw.
    { unfold download_single_polygon in Hrun. rewrite Hw in Hrun.
      rewrite bool_decide_eq_true_2 in Hrun by eauto. by simplify_eq. }
    unfold download_single_polygon in Hrun. rewrite Hw in Hrun.
    rewrite bool_decide_eq_false_2 in Hrun by (by intros []).
    run_job; try done.
    all: first
      [ left; by rewrite ?lookup_delete_ne, ?lookup_insert_ne by done
      | right; split_and!;
        [ rewrite lookup_delete_ne, lookup_insert_eq by done; by eauto
        | done
        | by eauto ] ]. }
  - left. split; [done|].
    subst again. unfold download_single_polygon. rewrite Hout.
    rewrite bool_decide_eq_false_2 by (by intros []).
    destruct (download_body _ _ _ _ _ _ _ _ _ _ _ _ _) as [[e|r2] w2] eqn:Hbody; [done|].
    simpl. unfold_job. repeat (case_match; simplify_eq/=); done.
  - right. split_and!; [done | done | done |].
    subst again. unfold download_single_polygon.
    by rewrite bool_decide_eq_true_2.
Qed.

Lemma failed_job_is_attempted_again_witness :
  let w' := (Demo.small_job "broken" (lit 1 0) Demo.empty_world).2 in
  let again := Demo.small_job "dtm" (lit 1 0) w' in
  (fs w' !! "out/D_1.0m_1.tif" = None ∧ classify again.1 ≠ Skipped)
  ∨ (is_Some (fs w' !! "out/D_1.0m_1.tif")
     ∧ flt (S754_zero false) (lit 1 (-1)) = true
     ∧ (∃ e, Demo.sleep_overflow (lit 1 (-1)) = Some e
             ∧ error_type (Demo.small_job "broken" (lit 1 0) Demo.empty_world).1
               = Some (exn_type e))
     ∧ again = (mkResult 1 true true None None, w')).
Proof.
  intros w'.
  apply (failed_job_is_attempted_again Demo.env 0 0 "/tmp/tmpa1.tif" "/tmp/tmpa1.tif" 1
           Demo.small_row Demo.small_row
           [(1, (lit 0 0, lit 0 0, lit 10 0, lit 10 0))]
           [(1, (lit 0 0, lit 0 0, lit 10 0, lit 10 0))] "http://wcs" "http://wcs"
           "broken" "dtm" "out" (lit 1 (-1)) (lit 1 (-1)) (lit 1 0) 100 100
           Demo.empty_world w' (Demo.small_job "broken" (lit 1 0) Demo.empty_world).1);
    [reflexivity | by vm_compute | reflexivity].
Defined.

(** ** Failures before the request *)

(** A resolution of zero, of either sign, makes the planner raise
    [ZeroDivisionError], whatever the box. *)
Theorem zero_resolution_raises (row : Row) (resolution : float) :
  is_zero resolution = true →
  pixel_dims row resolution = inl (ZeroDivisionError "float division by zero").
Proof.
  intros Hz. unfold pixel_dims, pixel_extent, py_truediv. by rewrite Hz.
Qed.

Lemma zero_resolution_raises_witness :
  pixel_dims Demo.small_row (S754_zero true)
  = inl (ZeroDivisionError "float division by zero").
Proof. apply (zero_resolution_raises Demo.small_row (S754_zero true)). reflexivity. Defined.

(** X8. A box whose [maxx] is infinite while [minx] is finite cannot be
    planned at a finite non-zero resolution: [int] raises [OverflowError]. *)
Theorem infinite_extent_raises (row : Row) (resolution : float) :
  (∃ s, maxx row = S754_infinity s) →
  is_finite (minx row) = true →
  is_finite resolution = true → is_zero resolution = false →
  pixel_dims row resolution
  = inl (OverflowError "cannot convert float infinity to integer").
Proof.
  intros [s Hmax] Hmin Hres Hz. unfold pixel_dims, pixel_extent, py_truediv.
  rewrite Hz, Hmax.
  by destruct (minx row) as [| | |? ? ?], resolution as [| | |? ? ?].
Qed.

Lemma infinite_extent_raises_witness :
  pixel_dims (mkRow 0 (lit 0 0) (lit 0 0) (S754_infinity false) (lit 1 0)) (lit 1 0)
  = inl (OverflowError "cannot convert float infinity to integer").
Proof.
  apply (infinite_extent_raises
           (mkRow 0 (lit 0 0) (lit 0 0) (S754_infinity false) (lit 1 0)) (lit 1 0));
    [by exists false | reflexivity | reflexivity | reflexivity].
Defined.

(** X10. When the planner raises, the job fails with the planner's exception,
    after obtaining the thread's session and before any request. *)
Theorem planner_failure_fails_job {geometry raster mask}
    (E : Env geometry raster mask) (tid : nat) (tmp : string) (idx : Z)
    (row : Row) (polygon_gdf : list (Z * geometry))
    (wcs_url coverage_id output_folder : string)
    (sleep_duration resolution : float) (max_pixels : Z)
    (w w1 : world) (wcs : WebCoverageService) (e : exn) :
  fs w !! output_path E output_folder resolution idx = None →
  existsb isnan [minx row; miny row; maxx row; maxy row] = false →
  get_wcs_connection E tid wcs_url w = (inr wcs, w1) →
  pixel_dims row resolution = inl e →
  download_single_polygon E tid tmp idx row polygon_gdf wcs_url coverage_id
    output_folder sleep_duration resolution max_pixels w
  = (mkResult idx false false (Some (exn_type e)) (Some (exn_msg e)), w1).
Proof.
  intros Hout Hnan Hconn Hdims.
  unfold download_single_polygon. rewrite Hout.
  rewrite bool_decide_eq_false_2 by (by intros []).
  unfold download_body. cbv [mbind M_bind mret M_ret raise lift].
  by rewrite Hnan, Hconn, Hdims.
Qed.

Lemma planner_failure_fails_job_witness :
  Demo.small_job "dtm" (S754_zero false) Demo.empty_world
  = (mkResult 1 false false (Some "ZeroDivisionError") (Some "float division by zero"),
     mkWorld ∅ {[ 0%nat := mkWCS "http://wcs" "1.0.0" ]}
             [EvConnect "http://wcs" "1.0.0"]).
Proof.
  apply (planner_failure_fails_job Demo.env 0 "/tmp/tmpa1.tif" 1 Demo.small_row
           [(1, (lit 0 0, lit 0 0, lit 10 0, lit 10 0))] "http://wcs" "dtm" "out"
           (lit 1 (-1)) (S754_zero false) 100 Demo.empty_world _
           (mkWCS "http://wcs" "1.0.0")
           (ZeroDivisionError "float division by zero"));
    reflexivity.
Defined.

(** X11. When the thread has no session and the service cannot be reached, the
    job fails with the constructor's exception; the attempt is the only
    thing that happened and no session is cached, so the thread's next job
    tries to connect again. *)
Theorem unreachable_service_fails_job {geometry raster mask}
    (E : Env geometry raster mask) (tid : nat) (tmp : string) (idx : Z)
    (row : Row) (polygon_gdf : list (Z * geometry))
    (wcs_url coverage_id output_folder : string)
    (sleep_duration resolution : float) (max_pixels : Z)
    (w : world) (e : exn) :
  fs w !! output_path E output_folder resolution idx = None →
  existsb isnan [minx row; miny row; maxx row; maxy row] = false →
  thread_local w !! tid = None →
  wcs_connect E wcs_url "1.0.0" = Some e →
  download_single_polygon E tid tmp idx row polygon_gdf wcs_url coverage_id
    output_folder sleep_duration resolution max_pixels w
  = (mkResult idx false false (Some (exn_type e)) (Some (exn_msg e)),
     mkWorld (fs w) (thread_local w) (trace w ++ [EvConnect wcs_url "1.0.0"])).
Proof.
  intros Hout Hnan Hnone Hconn.
  unfold download_single_polygon. rewrite Hout.
  rewrite bool_decide_eq_false_2 by (by intros []).
  unfold download_body, get_wcs_connection. cbv [mbind M_bind mret M_ret raise lift].
  by rewrite Hnan, Hnone, Hconn.
Qed.

Lemma unreachable_service_fails_job_witness :
  download_single_polygon Demo.unreachable 0 "/tmp/tmpa1.tif" 1 Demo.small_row
    [(1, (lit 0 0, lit 0 0, lit 10 0, lit 10 0))] "http://wcs" "dtm" "out"
    (lit 1 (-1)) (lit 1 0) 100 Demo.empty_world
  = (mkResult 1 false false (Some "ConnectionError") (Some "no route to host"),
     mkWorld ∅ ∅ [EvConnect "http://wcs" "1.0.0"]).
Proof.
  apply (unreachable_service_fails_job Demo.unreachable 0 "/tmp/tmpa1.tif" 1
           Demo.small_row [(1, (lit 0 0, lit 0 0, lit 10 0, lit 10 0))] "http://wcs"
           "dtm" "out" (lit 1 (-1)) (lit 1 0) 100 Demo.empty_world
           (Exn "ConnectionError" "no route to host"));
    reflexivity.
Defined.

(** X12. A call of [get_wcs_connection] that raises caches nothing: the next
    call on the thread connects afresh, to the URL it is given. *)
Theorem failed_connection_is_not_cached {geometry raster mask}
    (E : Env geometry raster mask) (tid : nat) (u1 u2 : string)
    (w w1 : world) (e : exn) :
  get_wcs_connection E tid u1 w = (inl e, w1) →
  wcs_connect E u2 "1.0.0" = None →
  thread_local w1 !! tid = None
  ∧ (get_wcs_connection E tid u2 w1).1 = inr (mkWCS u2 "1.0.0").
Proof.
  unfold get_wcs_connection. intros Hfirst Hsecond.
  destruct (thread_local w !! tid) eqn:Hcached; [done|].
  destruct (wcs_connect E u1 "1.0.0"); simplify_eq/=.
  by rewrite Hcached, Hsecond.
Qed.

Lemma failed_connection_is_not_cached_witness :
  let w1 := mkWorld ∅ ∅ [EvConnect "http://one" "1.0.0"] in
  thread_local w1 !! 0%nat = None
  ∧ (get_wcs_connection Demo.env 0 "http://two" w1).1 = inr (mkWCS "http://two" "1.0.0").
Proof.
  intros w1.
  pose (E1 := mkEnv _ _ _ Demo.integral_str id id
                (λ u _, if bool_decide (u = "http://one")
                        then Some (Exn "ConnectionError" "down") else None)
                Demo.getCoverage (λ _ _, None) inr (λ _ _, inr ()) id
                (λ r _, inr r) (λ r _, inr r) Demo.sleep_overflow (λ _, "t")
              : Env (float * float * float * float) string unit).
  exact (failed_connection_is_not_cached E1 0 "http://one" "http://two"
           Demo.empty_world w1 (Exn "ConnectionError" "down") eq_refl eq_refl).
Defined.

(** ** The response check *)

(** X13. A body counts as an error document exactly when its first byte is
    ["<"]: the second test of the code adds nothing, and an empty body or
    one with leading white space passes as a tile. *)
Theorem markup_iff_first_byte (data : string) :
  starts_with_markup data = true ↔ ∃ rest, data = String "<" rest.
Proof.
  unfold starts_with_markup. split.
  - intros H. destruct data as [|c data]; [done|].
    change (String.prefix "<" (String c data))
      with (if ascii_dec "<" c then String.prefix EmptyString data else false) in H.
    change (String.prefix "<?" (String c data))
      with (if ascii_dec "<" c then String.prefix "?" data else false) in H.
    destruct (ascii_dec "<" c) as [<-|Hc]; [by eexists | done].
  - intros [rest ->]. apply markup_starts.
Qed.

(** ** The successful path *)

(** X14. When every step succeeds, [time.sleep] included when it is called,
    the file written at the output path is what [save] produced for the
    raster loaded from the downloaded bytes and masked with the inverted mask
    of the rows labelled with the job's index; nothing else changes in the
    file system, the temporary file is gone, and the events are the request,
    the read, the staging, the masking, the save, the unlink and the optional
    pause, in that order. *)
Theorem job_success_writes_masked_raster {geometry raster mask}
    (E : Env geometry raster mask) (tid : nat) (tmp : string) (idx : Z)
    (row : Row) (polygon_gdf : list (Z * geometry))
    (wcs_url coverage_id output_folder : string)
    (sleep_duration resolution : float) (max_pixels : Z)
    (w w1 : world) (wcs : WebCoverageService) (wd ht : Z)
    (data bytes : string) (rows : list geometry) (rst masked : raster) (msk : mask) :
  let output_file := output_path E output_folder resolution idx in
  let req := mkRequest coverage_id (minx row, miny row, maxx row, maxy row)
               "EPSG:25833" "GeoTIFF" wd ht in
  fs w !! output_file = None →
  fs w !! tmp = None → tmp ≠ output_file →
  existsb isnan [minx row; miny row; maxx row; maxy row] = false →
  get_wcs_connection E tid wcs_url w = (inr wcs, w1) →
  pixel_dims row resolution = inr (wd, ht) →
  wd ≤ max_pixels ∧ ht ≤ max_pixels →
  wcs_getCoverage E wcs req = inr (inr data) →
  starts_with_markup data = false →
  tmp_write E tmp data = None →
  Raster_load E data = inr rst →
  loc polygon_gdf idx = inr rows →
  Vector_create_mask E rows rst = inr msk →
  Raster_set_mask E rst (mask_invert E msk) = inr masked →
  Raster_save E masked output_file = inr bytes →
  (flt (S754_zero false) sleep_duration = true →
   sleep_raises E sleep_duration = None) →
  ∃ w',
    download_single_polygon E tid tmp idx row polygon_gdf wcs_url coverage_id
      output_folder sleep_duration resolution max_pixels w
    = (mkResult idx true false None None, w')
    ∧ fs w' = <[output_file := bytes]> (fs w)
    ∧ thread_local w' = thread_local w1
    ∧ trace w'
      = (trace w1
         ++ [EvGetCoverage wcs req; EvRead; EvTempCreate tmp; EvRasterLoad tmp;
             EvCreateMask; EvSetMask; EvSave output_file; EvUnlink tmp]
         ++ (if flt (S754_zero false) sleep_duration
             then [EvSleep sleep_duration] else []))%list.
Proof.
  intros output_file req Hout Hfresh Hne Hnan Hconn Hdims [Hwd Hht] Hresp Hmark
    Hwrite Hload Hloc Hmask Hset Hsave Hquiet.
  assert ((max_pixels <? wd) || (max_pixels <? ht) = false) as Hcheck.
  { apply orb_false_iff. split; apply Z.ltb_ge; lia. }
  assert (fs w1 = fs w) as Hfs1.
  { unfold get_wcs_connection in Hconn.
    destruct (thread_local w !! tid); [by simplify_eq|].
    by destruct (wcs_connect E wcs_url "1.0.0"); simplify_eq. }
  destruct (flt (S754_zero false) sleep_duration) eqn:Hsleep.
  all: eexists; split.
  1, 3: unfold download_single_polygon; fold output_file; rewrite Hout;
    rewrite bool_decide_eq_false_2 by (by intros []);
    unfold download_body, stage_temp, mask_and_save, unlink, time_sleep, try_finally;
    cbv [mbind M_bind mret M_ret raise lift emit modify_fs];
    rewrite Hnan, Hconn, Hdims, Hcheck; fold req; rewrite Hresp, Hmark, Hwrite;
    simpl; rewrite lookup_insert_eq, Hload, Hloc, Hmask, Hset, Hsave, Hsleep,
      ?(Hquiet eq_refl);
    reflexivity.
  all: simpl; rewrite Hfs1, <-?app_assoc; (split_and!; [|done..]); solve_fs.
Qed.

Lemma job_success_writes_masked_raster_witness :
  ∃ w',
    Demo.small_job "dtm" (lit 1 0) Demo.empty_world
    = (mkResult 1 true false None None, w')
    ∧ fs w' = <[ "out/D_1.0m_1.tif" := "II*tile" ]> ∅.
Proof.
  destruct (job_success_writes_masked_raster Demo.env 0 "/tmp/tmpa1.tif" 1
              Demo.small_row [(1, (lit 0 0, lit 0 0, lit 10 0, lit 10 0))]
              "http://wcs" "dtm" "out" (lit 1 (-1)) (lit 1 0) 100 Demo.empty_world
              (mkWorld ∅ {[ 0%nat := mkWCS "http://wcs" "1.0.0" ]}
                       [EvConnect "http://wcs" "1.0.0"])
              (mkWCS "http://wcs" "1.0.0") 10 10 "II*tile" "II*tile"
              [(lit 0 0, lit 0 0, lit 10 0, lit 10 0)] "II*tile" "II*tile" ())
    as (w' & Hrun & Hfs & _);
    [reflexivity | reflexivity | by vm_compute | reflexivity | reflexivity
    | reflexivity | split; lia | reflexivity | reflexivity | reflexivity
    | reflexivity | reflexivity | reflexivity | reflexivity | reflexivity
    | reflexivity |].
  exists w'. split; [exact Hrun | exact Hfs].
Defined.

(** ** The orchestrator, continued *)

(** The log is not an output file of any polygon. *)
Lemma error_log_is_no_output {geometry raster mask} (E : Env geometry raster mask)
    (output_dir : string) (resolution : float) (idx : Z) :
  error_log_path output_dir ≠ output_path E output_dir resolution idx.
Proof.
  unfold error_log_path, output_path. intros H.
  apply (inj (String.append output_dir)) in H. discriminate H.
Qed.

Section run_facts.
Context {geometry raster mask : Type} (E : Env geometry raster mask).
Context (polygon_gdf : list (Z * geometry))
        (output_dir : string) (sleep_duration : float)
        (wcs_url coverage_id : string) (resolution : float) (max_pixels : Z).

Let rows := bounds_df E polygon_gdf.
Let step := run_job E polygon_gdf output_dir sleep_duration wcs_url coverage_id
              resolution max_pixels.

Lemma run_job_keeps_existing st job p c :
  job.2 ≠ p → fs st.2 !! p = Some c → fs (step st job).2 !! p = Some c.
Proof.
  intros Htmp Hp. subst step. unfold run_job.
  destruct job as [[pos tid] tmp]. simpl in Htmp.
  destruct (bounds_df E polygon_gdf !! pos) as [row|]; [|done].
  destruct (download_single_polygon _ _ _ _ _ _ _ _ _ _ _ _ _) as [r w'] eqn:Hrun.
  simpl. by eapply job_keeps_existing.
Qed.

Lemma run_job_frame st job p :
  job.2 ≠ p → (∀ idx, p ≠ output_path E output_dir resolution idx) →
  fs (step st job).2 !! p = fs st.2 !! p.
Proof.
  intros Htmp Hout. subst step. unfold run_job.
  destruct job as [[pos tid] tmp]. simpl in Htmp.
  destruct (bounds_df E polygon_gdf !! pos) as [row|]; [|done].
  destruct (download_single_polygon _ _ _ _ _ _ _ _ _ _ _ _ _) as [r w'] eqn:Hrun.
  simpl. by eapply job_frame.
Qed.

Lemma run_jobs_keep_existing jobs st p c :
  (∀ job, job ∈ jobs → job.2 ≠ p) →
  fs st.2 !! p = Some c → fs (foldl step st jobs).2 !! p = Some c.
Proof.
  revert st. induction jobs as [|job jobs IH]; intros st Htmp Hp; [done|].
  simpl. apply IH; [intros j Hj; apply Htmp; by right|].
  apply run_job_keeps_existing; [apply Htmp; by left | done].
Qed.

Lemma run_jobs_frame jobs st p :
  (∀ job, job ∈ jobs → job.2 ≠ p) →
  (∀ idx, p ≠ output_path E output_dir resolution idx) →
  fs (foldl step st jobs).2 !! p = fs st.2 !! p.
Proof.
  revert st. induction jobs as [|job jobs IH]; intros st Htmp Hout; [done|].
  simpl. rewrite IH; [|intros j Hj; apply Htmp; by right | done].
  apply run_job_frame; [apply Htmp; by left | done].
Qed.

(** Outputs of finished, unfailed jobs are on disk and stay there. *)
Lemma run_jobs_outputs jobs st :
  (∀ job idx, job ∈ jobs → job.2 ≠ output_path E output_dir resolution idx) →
  (∀ pos r, st.1 !! pos = Some r → classify r ≠ Failed →
     ∃ row, rows !! pos = Some row
            ∧ is_Some (fs st.2 !! output_path E output_dir resolution (Index row))) →
  ∀ pos r, (foldl step st jobs).1 !! pos = Some r → classify r ≠ Failed →
     ∃ row, rows !! pos = Some row
            ∧ is_Some (fs (foldl step st jobs).2
                         !! output_path E output_dir resolution (Index row)).
Proof.
  revert st. induction jobs as [|job jobs IH]; intros st Htmp Hst; [done|].
  simpl. apply IH; [intros j i Hj; apply Htmp; by right|].
  assert (∀ idx, job.2 ≠ output_path E output_dir resolution idx) as Hjob.
  { intros i. apply Htmp. by left. }
  clear IH Htmp. intros pos r. subst step. unfold run_job.
  destruct job as [[p tid] tmp]. simpl in Hjob. fold rows.
  destruct (rows !! p) as [row|] eqn:Hrow; [|by apply Hst].
  destruct (download_single_polygon _ _ _ _ _ _ _ _ _ _ _ _ _) as [r' w'] eqn:Hrun.
  simpl. rewrite lookup_insert. case_decide as Hp.
  - intros [= <-] Hok. subst pos. exists row. split; [done|].
    by eapply job_output_present.
  - intros Hr Hok. destruct (Hst pos r Hr Hok) as (row0 & Hrow0 & [c Hc]).
    exists row0. split; [done|]. exists c.
    eapply job_keeps_existing; [exact Hrun | apply not_eq_sym, Hjob | done].
Qed.

(** Where the records of the failure list come from. *)
Lemma aggregate_records items t fp :
  fp ∈ failed_polygons (foldl (aggregate E) t items) →
  fp ∈ failed_polygons t
  ∨ ∃ row r, (row, r) ∈ items ∧ classify r = Failed
      ∧ fp_index fp = index r
      ∧ (fp_minx fp, fp_miny fp, fp_maxx fp, fp_maxy fp)
        = (minx row, miny row, maxx row, maxy row)
      ∧ fp_error_type fp = or_default (error_type r) "Unknown"
      ∧ fp_error_message fp = or_default (error_message r) "Unknown error".
Proof.
  revert t. induction items as [|[row r] items IH]; intros t Hfp; [by left|].
  simpl in Hfp. apply IH in Hfp as [Hfp | (row0 & r0 & Hin & Hrest)].
  - unfold aggregate in Hfp.
    destruct (skipped r) eqn:Hsk; [by left|].
    destruct (success r) eqn:Hsu; [by left|].
    simpl in Hfp. apply elem_of_app in Hfp as [Hfp | Hfp]; [by left|].
    apply list_elem_of_singleton in Hfp as ->. right. exists row, r.
    split_and!; try done; [by left | unfold classify; by rewrite Hsk, Hsu].
  - right. exists row0, r0. split; [by right | done].
Qed.

End run_facts.

(** X16. A run never changes a file that existed when it started, as long as
    that file is not handed out as a temporary name. *)
Theorem process_polygons_keeps_existing_files {geometry raster mask}
    (E : Env geometry raster mask) (polygon_gdf : list (Z * geometry))
    (output_dir : string) (sleep_duration : float)
    (wcs_url coverage_id : string) (resolution : float) (max_pixels : Z)
    (s : schedule) (w : world) (p c : string) :
  (∀ job, job ∈ run_order s → job.2 ≠ p) →
  fs w !! p = Some c →
  fs (process_polygons E polygon_gdf output_dir sleep_duration wcs_url coverage_id
        resolution max_pixels s w).2 !! p = Some c.
Proof.
  intros Htmp Hp. unfold process_polygons.
  destruct (run_jobs _ _ _ _ _ _ _ _ _ _) as [done w'] eqn:Hjobs. simpl.
  unfold run_jobs in Hjobs.
  pose proof (run_jobs_keep_existing E polygon_gdf output_dir sleep_duration wcs_url
                coverage_id resolution max_pixels (run_order s) (∅, w) p c Htmp Hp)
    as Hkeep.
  by rewrite Hjobs in Hkeep.
Qed.

Lemma process_polygons_keeps_existing_files_witness :
  fs (process_polygons Demo.env Demo.three_gdf "out" (lit 0 0) "http://wcs" "dtm"
        (lit 1 0) 100 Demo.three_jobs Demo.resumed_world).2 !! "out/D_1.0m_3.tif"
  = Some "II*old".
Proof.
  apply (process_polygons_keeps_existing_files Demo.env Demo.three_gdf "out" (lit 0 0)
           "http://wcs" "dtm" (lit 1 0) 100 Demo.three_jobs Demo.resumed_world);
    [|reflexivity].
  intros job Hjob. apply list_elem_of_In in Hjob. simpl in Hjob.
  destruct Hjob as [<-|[<-|[<-|[]]]]; by vm_compute.
Defined.

(** X17. At the end of a run every polygon whose result was success or skipped
    has its output file on disk, provided no temporary name is an output
    path. *)
Theorem process_polygons_outputs_on_disk {geometry raster mask}
    (E : Env geometry raster mask) (polygon_gdf : list (Z * geometry))
    (output_dir : string) (sleep_duration : float)
    (wcs_url coverage_id : string) (resolution : float) (max_pixels : Z)
    (s : schedule) (w : world) (row : Row) (r : DownloadResult) :
  (∀ job idx, job ∈ run_order s → job.2 ≠ output_path E output_dir resolution idx) →
  (row, r) ∈ as_completed E polygon_gdf s
               (run_jobs E polygon_gdf output_dir sleep_duration wcs_url coverage_id
                  resolution max_pixels s w).1 →
  classify r ≠ Failed →
  is_Some (fs (process_polygons E polygon_gdf output_dir sleep_duration wcs_url
                 coverage_id resolution max_pixels s w).2
             !! output_path E output_dir resolution (Index row)).
Proof.
  intros Htmp Hin Hok. unfold process_polygons.
  destruct (run_jobs _ _ _ _ _ _ _ _ _ _) as [done w'] eqn:Hjobs. simpl in *.
  unfold as_completed in Hin. apply list_elem_of_omap in Hin as (pos & _ & Hpos).
  destruct (bounds_df E polygon_gdf !! pos) as [row0|] eqn:Hrow; [|done].
  destruct (done !! pos) as [r0|] eqn:Hr; [|done]. simpl in Hpos. simplify_eq.
  unfold run_jobs in Hjobs.
  pose proof (run_jobs_outputs E polygon_gdf output_dir sleep_duration wcs_url
                coverage_id resolution max_pixels (run_order s) (∅, w) Htmp) as Hout.
  rewrite Hjobs in Hout. simpl in Hout.
  destruct (Hout ltac:(by intros ? ? ?%lookup_empty_Some) pos r Hr Hok)
    as (row' & Hrow' & Hfile).
  by simplify_eq.
Qed.

Lemma process_polygons_outputs_on_disk_witness :
  is_Some (fs (process_polygons Demo.env Demo.three_gdf "out" (lit 0 0) "http://wcs"
                 "dtm" (lit 1 0) 100 Demo.three_jobs Demo.resumed_world).2
             !! "out/D_1.0m_5.tif").
Proof.
  apply (process_polygons_outputs_on_disk Demo.env Demo.three_gdf "out" (lit 0 0)
           "http://wcs" "dtm" (lit 1 0) 100 Demo.three_jobs Demo.resumed_world
           (mkRow 5 (lit 0 0) (lit 0 0) (lit 20 0) (lit 10 0))
           (mkResult 5 true false None None)).
  - intros job idx Hjob Heq. apply list_elem_of_In in Hjob. simpl in Hjob.
    unfold output_path in Heq. destruct Hjob as [<-|[<-|[<-|[]]]]; discriminate Heq.
  - apply list_elem_of_In. vm_compute. tauto.
  - discriminate.
Defined.

(** X18. Every record of the failure list describes a polygon of the frame: it
    has that polygon's index and bounding box, and neither its error type
    nor its message is empty. *)
Theorem failure_records_describe_polygons {geometry raster mask}
    (E : Env geometry raster mask) (polygon_gdf : list (Z * geometry))
    (output_dir : string) (sleep_duration : float)
    (wcs_url coverage_id : string) (resolution : float) (max_pixels : Z)
    (s : schedule) (w : world) (fp : FailedPolygon) :
  fp ∈ (process_polygons E polygon_gdf output_dir sleep_duration wcs_url coverage_id
          resolution max_pixels s w).1.2 →
  (∃ g, (fp_index fp, g) ∈ polygon_gdf
        ∧ (fp_minx fp, fp_miny fp, fp_maxx fp, fp_maxy fp) = geom_bounds E g)
  ∧ fp_error_type fp ≠ EmptyString
  ∧ fp_error_message fp ≠ EmptyString.
Proof.
  unfold process_polygons.
  destruct (run_jobs _ _ _ _ _ _ _ _ _ _) as [done w'] eqn:Hjobs. simpl.
  intros Hfp. apply aggregate_records in Hfp as [Hfp | Hfp]; [by apply elem_of_nil in Hfp|].
  destruct Hfp as (row & r & Hin & _ & Hidx & Hbox & Hty & Hmsg).
  unfold as_completed in Hin. apply list_elem_of_omap in Hin as (pos & _ & Hpos).
  destruct (bounds_df E polygon_gdf !! pos) as [row0|] eqn:Hrow; [|done].
  destruct (done !! pos) as [r0|] eqn:Hr; [|done]. simpl in Hpos. simplify_eq.
  unfold run_jobs in Hjobs.
  pose proof (run_jobs_labelled E polygon_gdf output_dir sleep_duration wcs_url
                coverage_id resolution max_pixels (run_order s) (∅, w)) as Hlab.
  rewrite Hjobs in Hlab. simpl in Hlab.
  destruct (Hlab ltac:(by intros ? ? ?%lookup_empty_Some) pos r Hr)
    as (row' & Hrow' & Hlabel).
  simplify_eq. split_and!.
  - unfold bounds_df in Hrow. apply list_lookup_fmap_Some in Hrow as ([i g] & -> & Hg).
    exists g. simpl in *. destruct (geom_bounds E g) as [[[x0 y0] x1] y1] eqn:Hb.
    simpl in *. rewrite Hidx, Hlabel. split; [by eapply list_elem_of_lookup_2|].
    congruence.
  - rewrite Hty. unfold or_default. by destruct (error_type r) as [[|]|].
  - rewrite Hmsg. unfold or_default. by destruct (error_message r) as [[|]|].
Qed.

Lemma failure_records_describe_polygons_witness :
  let fp := mkFailed 7 Demo.nan (lit 0 0) (lit 10 0) (lit 10 0) "ValueError"
              "Invalid geometry bounds (NaN values) for polygon 7"
              "2024-01-01T00:00:00" in
  (∃ g, (7, g) ∈ Demo.three_gdf
        ∧ (Demo.nan, lit 0 0, lit 10 0, lit 10 0) = g)
  ∧ fp_error_type fp ≠ EmptyString
  ∧ fp_error_message fp ≠ EmptyString.
Proof.
  intros fp.
  apply (failure_records_describe_polygons Demo.env Demo.three_gdf "out" (lit 0 0)
           "http://wcs" "dtm" (lit 1 0) 100 Demo.three_jobs Demo.resumed_world fp).
  apply list_elem_of_In. vm_compute. tauto.
Defined.

Lemma count_Permutation o rs1 rs2 : rs1 ≡ₚ rs2 → count o rs1 = count o rs2.
Proof. intros H. unfold count, of_kind. by rewrite H. Qed.

(** X19. The order in which [as_completed] hands the futures back changes
    nothing but the order of the failure list: two runs that differ in it
    alone end in the same world with the same three counters, and list the
    same failed indices. *)
Theorem counts_do_not_depend_on_yield_order {geometry raster mask}
    (E : Env geometry raster mask) (polygon_gdf : list (Z * geometry))
    (output_dir : string) (sleep_duration : float)
    (wcs_url coverage_id : string) (resolution : float) (max_pixels : Z)
    (s1 s2 : schedule) (w : world) :
  run_order s1 = run_order s2 →
  yield_order s1 ≡ₚ yield_order s2 →
  let run1 := process_polygons E polygon_gdf output_dir sleep_duration wcs_url
                coverage_id resolution max_pixels s1 w in
  let run2 := process_polygons E polygon_gdf output_dir sleep_duration wcs_url
                coverage_id resolution max_pixels s2 w in
  run1.1.1 = run2.1.1
  ∧ run1.2 = run2.2
  ∧ fp_index <$> run1.1.2 ≡ₚ fp_index <$> run2.1.2.
Proof.
  intros Hrun Hyield run1 run2. subst run1 run2.
  unfold process_polygons, run_jobs. rewrite Hrun.
  destruct (foldl _ _ _) as [done w']. simpl.
  assert (as_completed E polygon_gdf s1 done ≡ₚ as_completed E polygon_gdf s2 done)
    as Hperm by (unfold as_completed; by rewrite Hyield).
  destruct (aggregate_fold E (as_completed E polygon_gdf s1 done) (mkTally 0 0 0 [] 0))
    as (Hc1 & Hs1 & Hf1 & Hl1).
  destruct (aggregate_fold E (as_completed E polygon_gdf s2 done) (mkTally 0 0 0 [] 0))
    as (Hc2 & Hs2 & Hf2 & Hl2).
  assert ((as_completed E polygon_gdf s1 done).*2 ≡ₚ (as_completed E polygon_gdf s2 done).*2)
    as Hperm2 by (by rewrite Hperm).
  split_and!; [|done|].
  - rewrite Hc1, Hs1, Hf1, Hc2, Hs2, Hf2.
    by rewrite !(count_Permutation _ _ _ Hperm2).
  - rewrite Hl1, Hl2. simpl. unfold of_kind. by rewrite Hperm2.
Qed.

Lemma counts_do_not_depend_on_yield_order_witness :
  let s2 := mkSchedule (run_order Demo.three_jobs) [0%nat; 1%nat; 2%nat] in
  let run1 := process_polygons Demo.env Demo.three_gdf "out" (lit 0 0) "http://wcs"
                "dtm" (lit 1 0) 100 Demo.three_jobs Demo.resumed_world in
  let run2 := process_polygons Demo.env Demo.three_gdf "out" (lit 0 0) "http://wcs"
                "dtm" (lit 1 0) 100 s2 Demo.resumed_world in
  run1.1.1 = run2.1.1
  ∧ run1.2 = run2.2
  ∧ fp_index <$> run1.1.2 ≡ₚ fp_index <$> run2.1.2.
Proof.
  intros s2.
  apply (counts_do_not_depend_on_yield_order Demo.env Demo.three_gdf "out" (lit 0 0)
           "http://wcs" "dtm" (lit 1 0) 100 Demo.three_jobs s2 Demo.resumed_world);
    [reflexivity | apply perm_swap].
Defined.

(** ** [main] *)

(** X23. A run without failures does not touch [failed_polygons.csv]: a log
    left by an earlier run keeps its content, and none is created. *)
Theorem clean_run_leaves_log_alone {geometry raster mask}
    (E : Env geometry raster mask) (polygon_gdf : list (Z * geometry))
    (output_dir : string) (sleep_duration : float)
    (wcs_url coverage_id : string) (resolution : float) (max_pixels : Z)
    (s : schedule) (w : world) :
  (process_polygons E polygon_gdf output_dir sleep_duration wcs_url coverage_id
     resolution max_pixels s w).1.2 = [] →
  (∀ job, job ∈ run_order s → job.2 ≠ error_log_path output_dir) →
  fs (main E polygon_gdf output_dir sleep_duration wcs_url coverage_id
        resolution max_pixels true s w).2 !! error_log_path output_dir
  = fs w !! error_log_path output_dir.
Proof.
  intros Hclean Htmp. unfold main. simpl.
  destruct (process_polygons _ _ _ _ _ _ _ _ _ _) as [[[[c k] f] l] w'] eqn:Hproc.
  simpl in Hclean. subst l. simpl.
  unfold process_polygons in Hproc.
  destruct (run_jobs _ _ _ _ _ _ _ _ _ _) as [done w1] eqn:Hjobs.
  injection Hproc as _ _ _ _ <-. unfold run_jobs in Hjobs.
  pose proof (run_jobs_frame E polygon_gdf output_dir sleep_duration wcs_url
                coverage_id resolution max_pixels (run_order s) (∅, w)
                (error_log_path output_dir) Htmp
                (error_log_is_no_output E output_dir resolution)) as Hframe.
  by rewrite Hjobs in Hframe.
Qed.

Lemma clean_run_leaves_log_alone_witness :
  let gdf := [(3, (lit 0 0, lit 0 0, lit 10 0, lit 10 0))] in
  fs (main Demo.env gdf "out" (lit 0 0) "http://wcs" "dtm" (lit 1 0) 100 true
        Demo.one_job Demo.resumed_world).2 !! "out/failed_polygons.csv"
  = Some "stale".
Proof.
  intros gdf.
  apply (clean_run_leaves_log_alone Demo.env gdf "out" (lit 0 0) "http://wcs" "dtm"
           (lit 1 0) 100 Demo.one_job Demo.resumed_world); [reflexivity|].
  intros job Hjob. apply list_elem_of_In in Hjob. simpl in Hjob.
  destruct Hjob as [<-|[]]. by vm_compute.
Defined.

(** ** The notebook's cell *)

Ltac run_cell :=
  cbv [notebook.download_row notebook.write_bytes mask_and_save unlink
       try_finally mbind M_bind mret M_ret raise lift emit modify_fs] in *;
  repeat (case_match; simplify_eq/=).

(** X24. A pass of the notebook's loop that ends normally has written the
    output file anew, whether or not one was there, with what [save]
    produced in this pass; it has removed its temporary file and changed no
    other path. *)
Theorem notebook_row_overwrites_output {geometry raster mask}
    (E : Env geometry raster mask)
    (getCoverage : string → float * float * float * float → string → string →
                   sjekker_features.pynum → sjekker_features.pynum →
                   result (result string))
    (polygon : list (Z * geometry)) (coverage_id output_folder tempdir : string)
    (row : Row) (w w' : world) :
  let temp := notebook.temp_path tempdir (Index row) in
  let output := notebook.output_path output_folder (Index row) in
  temp ≠ output →
  notebook.download_row E getCoverage polygon coverage_id output_folder tempdir row w
  = (inr (), w') →
  ∃ rst bytes,
    Raster_save E rst output = inr bytes
    ∧ fs w' = <[output := bytes]> (delete temp (fs w)).
Proof.
  intros temp output Hne Hrun. subst temp output. run_cell.
  all: try (by match goal with
               | H : <[_ := _]> _ !! _ = None |- _ => rewrite lookup_insert_eq in H
               end).
  all: eexists _, _; split; [eassumption|]; solve_fs.
Qed.

Lemma notebook_row_overwrites_output_witness :
  let row := mkRow 4 (lit 1 0) (lit 0 0) (lit 10 0) (lit 10 0) in
  let w := mkWorld {[ "out/D_1m_4.tif" := "II*old" ]} ∅ [] in
  ∃ rst bytes,
    Raster_save Demo.strict rst "out/D_1m_4.tif" = inr bytes
    ∧ fs (Demo.nb_row row w).2
      = <[ "out/D_1m_4.tif" := bytes ]> (delete "/tmp/temp_4.tif" (fs w)).
Proof.
  intros row w.
  apply (notebook_row_overwrites_output Demo.strict Demo.nb_getCoverage Demo.nb_gdf
           "dtm" "out" "/tmp" row w (Demo.nb_row row w).2);
    [by vm_compute | reflexivity].
Defined.

(** X25. A pass that raises never unlinks its temporary file, and once the
    masking has begun the file is still there when the exception leaves the
    pass: the cell's [finally] frees objects only, and the [unlink] after it
    is not reached. *)
Theorem notebook_failure_leaks_temp_file {geometry raster mask}
    (E : Env geometry raster mask)
    (getCoverage : string → float * float * float * float → string → string →
                   sjekker_features.pynum → sjekker_features.pynum →
                   result (result string))
    (polygon : list (Z * geometry)) (coverage_id output_folder tempdir : string)
    (row : Row) (w w' : world) (e : exn) :
  let temp := notebook.temp_path tempdir (Index row) in
  notebook.download_row E getCoverage polygon coverage_id output_folder tempdir row w
  = (inl e, w') →
  ∃ evs, trace w' = (trace w ++ evs)%list
    ∧ (EvUnlink temp ∉ evs)
    ∧ (EvRasterLoad temp ∈ evs → ∃ data, fs w' !! temp = Some data).
Proof.
  intros temp Hrun. subst temp. run_cell.
  all: try (by match goal with
               | H : <[_ := _]> _ !! _ = None |- _ => rewrite lookup_insert_eq in H
               end).
  all: new_events.
  all: simpl; rewrite ?elem_of_cons, ?elem_of_nil; split.
  all: try (intros Hin; by intuition discriminate).
  all: intros _; rewrite ?lookup_insert_eq; by eauto.
Qed.

Lemma notebook_failure_leaks_temp_file_witness :
  let row := mkRow 5 (lit 0 0) (lit 0 0) (lit 10 0) (lit 10 0) in
  ∃ evs, trace (Demo.nb_row row Demo.empty_world).2 = ([] ++ evs)%list
    ∧ (EvUnlink "/tmp/temp_5.tif" ∉ evs)
    ∧ (EvRasterLoad "/tmp/temp_5.tif" ∈ evs →
       ∃ data, fs (Demo.nb_row row Demo.empty_world).2 !! "/tmp/temp_5.tif" = Some data).
Proof.
  intros row.
  exact (notebook_failure_leaks_temp_file Demo.strict Demo.nb_getCoverage Demo.nb_gdf
           "dtm" "out" "/tmp" row Demo.empty_world (Demo.nb_row row Demo.empty_world).2
           (Exn "RasterioIOError" "not recognized as a supported file format")
           eq_refl).
Defined.

Lemma for_each_stops {A} (body : A → M ()) (l1 l2 : list A) (x : A)
    (w w1 w2 : world) (e : exn) :
  for_each l1 body w = (inr (), w1) →
  body x w1 = (inl e, w2) →
  for_each (l1 ++ x :: l2) body w = (inl e, w2).
Proof.
  revert w. induction l1 as [|y l1 IH]; intros w Hl1 Hx.
  - simpl in *. unfold mret, M_ret in Hl1. simplify_eq.
    unfold mbind, M_bind. by rewrite Hx.
  - simpl in *. unfold mbind, M_bind in *.
    destruct (body y w) as [[e'|[]] w'] eqn:Hy; [done|]. by apply IH.
Qed.

(** X26. The notebook's loop stops at the first polygon whose pass raises: the
    exception leaves the cell, and the polygons after it are not
    downloaded. *)
Theorem notebook_stops_at_first_failure {geometry raster mask}
    (E : Env geometry raster mask)
    (getCoverage : string → float * float * float * float → string → string →
                   sjekker_features.pynum → sjekker_features.pynum →
                   result (result string))
    (polygon : list (Z * geometry)) (coverage_id output_folder tempdir : string)
    (before after : list Row) (row : Row) (w w1 w2 : world) (e : exn) :
  let pass := notebook.download_row E getCoverage polygon coverage_id output_folder
                tempdir in
  bounds_df E polygon = (before ++ row :: after)%list →
  for_each before pass w = (inr (), w1) →
  pass row w1 = (inl e, w2) →
  notebook.download_cell E getCoverage polygon coverage_id output_folder tempdir w
  = (inl e, w2).
Proof.
  intros pass Hrows Hbefore Hrow. unfold notebook.download_cell.
  rewrite Hrows. by eapply for_each_stops.
Qed.

Lemma notebook_stops_at_first_failure_witness :
  (Demo.nb_cell Demo.nb_gdf Demo.empty_world).1
  = inl (Exn "RasterioIOError" "not recognized as a supported file format")
  ∧ fs (Demo.nb_cell Demo.nb_gdf Demo.empty_world).2 !! "out/D_1m_6.tif" = None.
Proof.
  split; [|reflexivity]. unfold Demo.nb_cell.
  pose (rows := bounds_df Demo.strict Demo.nb_gdf).
  pose (pass := notebook.download_row Demo.strict Demo.nb_getCoverage Demo.nb_gdf
                  "dtm" "out" "/tmp").
  pose (w1 := (for_each (take 1 rows) pass Demo.empty_world).2).
  rewrite (notebook_stops_at_first_failure Demo.strict Demo.nb_getCoverage Demo.nb_gdf
             "dtm" "out" "/tmp" (take 1 rows) (drop 2 rows)
             (mkRow 5 (lit 0 0) (lit 0 0) (lit 10 0) (lit 10 0))
             Demo.empty_world w1 (pass (mkRow 5 (lit 0 0) (lit 0 0) (lit 10 0) (lit 10 0)) w1).2
             (Exn "RasterioIOError" "not recognized as a supported file format")
             eq_refl eq_refl eq_refl).
  reflexivity.
Defined.

(** ** More on the planner and the sessions *)

(** X9. A box with no extent along an axis, [max = min] finite, is planned one
    pixel wide along it at any resolution that is neither zero nor NaN. *)
Theorem degenerate_extent_is_one_pixel (x resolution : float) :
  is_finite x = true →
  is_zero resolution = false → isnan resolution = false →
  pixel_extent x x resolution = inr 1.
Proof.
  intros Hx Hz Hn. unfold pixel_extent, py_truediv. rewrite Hz.
  assert (∃ s, fsub x x = S754_zero s) as [s ->].
  { destruct x as [[|]| | |s m e]; try done; try by eexists.
    unfold fsub, SFsub, shl_align. rewrite Z.min_id, Z.sub_diag. simpl.
    rewrite ?Z.sub_diag. by eexists. }
  by destruct resolution.
Qed.

Lemma degenerate_extent_is_one_pixel_witness :
  pixel_extent (lit 7 0) (lit 7 0) (lit 1 (-1)) = inr 1.
Proof. apply (degenerate_extent_is_one_pixel (lit 7 0) (lit 1 (-1))); reflexivity. Defined.

(** X7. With a resolution of zero every job whose output is missing and whose
    bounds are numbers fails with [ZeroDivisionError], without a request. *)
Theorem zero_resolution_fails_job {geometry raster mask}
    (E : Env geometry raster mask) (tid : nat) (tmp : string) (idx : Z)
    (row : Row) (polygon_gdf : list (Z * geometry))
    (wcs_url coverage_id output_folder : string)
    (sleep_duration resolution : float) (max_pixels : Z)
    (w w1 : world) (wcs : WebCoverageService) :
  is_zero resolution = true →
  fs w !! output_path E output_folder resolution idx = None →
  existsb isnan [minx row; miny row; maxx row; maxy row] = false →
  get_wcs_connection E tid wcs_url w = (inr wcs, w1) →
  download_single_polygon E tid tmp idx row polygon_gdf wcs_url coverage_id
    output_folder sleep_duration resolution max_pixels w
  = (mkResult idx false false (Some "ZeroDivisionError")
       (Some "float division by zero"), w1).
Proof.
  intros Hz Hout Hnan Hconn.
  unfold download_single_polygon. rewrite Hout.
  rewrite bool_decide_eq_false_2 by (by intros []).
  unfold download_body. cbv [mbind M_bind mret M_ret raise lift].
  by rewrite Hnan, Hconn, (zero_resolution_raises row resolution Hz).
Qed.

Lemma zero_resolution_fails_job_witness :
  Demo.small_job "dtm" (S754_zero true) Demo.empty_world
  = (mkResult 1 false false (Some "ZeroDivisionError") (Some "float division by zero"),
     mkWorld ∅ {[ 0%nat := mkWCS "http://wcs" "1.0.0" ]}
             [EvConnect "http://wcs" "1.0.0"]).
Proof.
  apply (zero_resolution_fails_job Demo.env 0 "/tmp/tmpa1.tif" 1 Demo.small_row
           [(1, (lit 0 0, lit 0 0, lit 10 0, lit 10 0))] "http://wcs" "dtm" "out"
           (lit 1 (-1)) (S754_zero true) 100 Demo.empty_world _
           (mkWCS "http://wcs" "1.0.0"));
    reflexivity.
Defined.

Lemma connects_app evs1 evs2 : connects (evs1 ++ evs2) = (connects evs1 ++ connects evs2)%list.
Proof. unfold connects. apply omap_app. Qed.

(** While the service can be reached, a job builds a session exactly when
    its thread has none, and then caches it. *)
Lemma job_connects {geometry raster mask}
    (E : Env geometry raster mask) (tid : nat) (tmp : string) (idx : Z)
    (row : Row) (polygon_gdf : list (Z * geometry))
    (wcs_url coverage_id output_folder : string)
    (sleep_duration resolution : float) (max_pixels : Z)
    (w w' : world) (r : DownloadResult) :
  wcs_connect E wcs_url "1.0.0" = None →
  download_single_polygon E tid tmp idx row polygon_gdf wcs_url coverage_id
    output_folder sleep_duration resolution max_pixels w = (r, w') →
  ∃ evs, trace w' = (trace w ++ evs)%list
    ∧ (thread_local w' = thread_local w ∧ connects evs = []
       ∨ thread_local w !! tid = None
         ∧ thread_local w' = <[tid := mkWCS wcs_url "1.0.0"]> (thread_local w)
         ∧ connects evs = [wcs_url]).
Proof.
  intros Hreach Hrun. run_job.
  all: new_events.
  all: (by left) || (by right).
Qed.

Section session_facts.
Context {geometry raster mask : Type} (E : Env geometry raster mask).
Context (polygon_gdf : list (Z * geometry))
        (output_dir : string) (sleep_duration : float)
        (wcs_url coverage_id : string) (resolution : float) (max_pixels : Z).

Let rows := bounds_df E polygon_gdf.
Let step := run_job E polygon_gdf output_dir sleep_duration wcs_url coverage_id
              resolution max_pixels.

Lemma run_jobs_sessions jobs st :
  wcs_connect E wcs_url "1.0.0" = None →
  ∃ evs, trace (foldl step st jobs).2 = (trace st.2 ++ evs)%list
    ∧ size (thread_local (foldl step st jobs).2)
      = (size (thread_local st.2) + length (connects evs))%nat
    ∧ ∀ tid, is_Some (thread_local (foldl step st jobs).2 !! tid) →
             is_Some (thread_local st.2 !! tid) ∨ tid ∈ jobs.*1.*2.
Proof.
  intros Hreach. revert st. induction jobs as [|job jobs IH]; intros st.
  { exists []. rewrite app_nil_r. simpl. split_and!; [done | lia | by left]. }
  simpl. destruct (IH (step st job)) as (evs2 & Htr2 & Hsz2 & Hdom2).
  assert (∃ evs1, trace (step st job).2 = (trace st.2 ++ evs1)%list
            ∧ size (thread_local (step st job).2)
              = (size (thread_local st.2) + length (connects evs1))%nat
            ∧ ∀ tid, is_Some (thread_local (step st job).2 !! tid) →
                     is_Some (thread_local st.2 !! tid) ∨ tid = job.1.2)
    as (evs1 & Htr1 & Hsz1 & Hdom1).
  { subst step. unfold run_job. destruct job as [[pos tid] tmp]. fold rows.
    destruct (rows !! pos) as [row|].
    2: { exists []. rewrite app_nil_r. simpl. split_and!; [done | lia | by left]. }
    destruct (download_single_polygon _ _ _ _ _ _ _ _ _ _ _ _ _) as [r w'] eqn:Hrun.
    destruct (job_connects E _ _ _ _ _ _ _ _ _ _ _ _ _ _ Hreach Hrun)
      as (evs & Htr & [[Htl Hc] | (Hnone & Htl & Hc)]);
      exists evs; simpl; rewrite Htl, Hc; simpl.
    - split_and!; [done | lia | by left].
    - split_and!; [done | rewrite map_size_insert_None by done; lia |].
      intros t. rewrite lookup_insert. case_decide; [by right | by left]. }
  exists (evs1 ++ evs2)%list. rewrite Htr2, Htr1, <-app_assoc, Hsz2, Hsz1, connects_app.
  rewrite length_app. split_and!; [done | lia |].
  intros t Ht. destruct (Hdom2 t Ht) as [Hs | Hin].
  - destruct (Hdom1 t Hs) as [? | ->]; [by left | right; by left].
  - right. by right.
Qed.

Lemma run_jobs_all_skipped jobs st :
  (∀ row, row ∈ rows →
     is_Some (fs st.2 !! output_path E output_dir resolution (Index row))) →
  (∀ pos r, st.1 !! pos = Some r → classify r = Skipped) →
  (foldl step st jobs).2 = st.2
  ∧ ∀ pos r, (foldl step st jobs).1 !! pos = Some r → classify r = Skipped.
Proof.
  revert st. induction jobs as [|job jobs IH]; intros st Hfiles Hst; [done|].
  simpl.
  assert ((step st job).2 = st.2
          ∧ ∀ pos r, (step st job).1 !! pos = Some r → classify r = Skipped)
    as [Hw Hdone].
  { subst step. unfold run_job. destruct job as [[pos tid] tmp]. fold rows.
    destruct (rows !! pos) as [row|] eqn:Hrow; [|done].
    unfold download_single_polygon.
    rewrite bool_decide_eq_true_2
      by (apply Hfiles; by eapply list_elem_of_lookup_2).
    simpl. split; [done|]. intros p r. rewrite lookup_insert.
    case_decide; [by intros [= <-] | apply Hst]. }
  destruct (IH (step st job)) as [Hw' Hdone']; [by rewrite Hw | done |].
  by rewrite Hw', Hw.
Qed.

Lemma results_length s w workers :
  valid_schedule (length polygon_gdf) workers s →
  length (as_completed E polygon_gdf s
            (run_jobs E polygon_gdf output_dir sleep_duration wcs_url coverage_id
               resolution max_pixels s w).1) = length polygon_gdf.
Proof.
  intros (Hrun & Hyield & _).
  destruct (run_jobs _ _ _ _ _ _ _ _ _ _) as [done w1] eqn:Hjobs. simpl.
  assert (index <$> (as_completed E polygon_gdf s done).*2 ≡ₚ polygon_gdf.*1) as Hperm.
  { rewrite as_completed_indices.
    - rewrite Hyield, <-(bounds_df_length E), omap_lookup_seq.
      by rewrite bounds_df_Index.
    - intros pos Hpos. rewrite Hyield in Hpos.
      apply elem_of_seq in Hpos as [_ Hlt]. simpl in Hlt.
      rewrite <-(bounds_df_length E) in Hlt.
      unfold run_jobs in Hjobs.
      pose proof (run_jobs_covers E polygon_gdf output_dir sleep_duration wcs_url
                    coverage_id resolution max_pixels (run_order s) (∅, w) pos) as Hcov.
      pose proof (run_jobs_labelled E polygon_gdf output_dir sleep_duration wcs_url
                    coverage_id resolution max_pixels (run_order s) (∅, w)) as Hlab.
      rewrite Hjobs in Hcov, Hlab.
      destruct Hcov as [r Hr]; [|done|].
      { rewrite Hrun. apply elem_of_seq. rewrite <-(bounds_df_length E). lia. }
      destruct (Hlab ltac:(by simpl; intros ? ? ?%lookup_empty_Some) pos r Hr)
        as (row & Hrow & Hidx).
      by exists row, r. }
  apply Permutation_length in Hperm. by rewrite !length_fmap in Hperm.
Qed.

End session_facts.

(** X20. Connection reuse: while the service can be reached, a run on a pool
    of [workers] threads that starts without sessions constructs one
    session for each worker thread that ends up with one, and so at most
    [workers] sessions however many polygons there are. *)
Theorem run_opens_one_session_per_worker {geometry raster mask}
    (E : Env geometry raster mask) (polygon_gdf : list (Z * geometry))
    (output_dir : string) (workers : Z) (sleep_duration : float)
    (wcs_url coverage_id : string) (resolution : float) (max_pixels : Z)
    (s : schedule) (w : world) :
  0 < workers →
  wcs_connect E wcs_url "1.0.0" = None →
  thread_local w = ∅ →
  Forall (λ job, Z.of_nat job.1.2 < workers) (run_order s) →
  let w' := (process_polygons E polygon_gdf output_dir sleep_duration wcs_url
               coverage_id resolution max_pixels s w).2 in
  ∃ evs, trace w' = (trace w ++ evs)%list
    ∧ length (connects evs) = size (thread_local w')
    ∧ Z.of_nat (length (connects evs)) ≤ workers.
Proof.
  intros Hpos Hreach Hempty Hworkers w'. subst w'. unfold process_polygons.
  destruct (run_jobs _ _ _ _ _ _ _ _ _ _) as [done w1] eqn:Hjobs. simpl.
  unfold run_jobs in Hjobs.
  destruct (run_jobs_sessions E polygon_gdf output_dir sleep_duration wcs_url
              coverage_id resolution max_pixels (run_order s) (∅, w) Hreach)
    as (evs & Htr & Hsz & Hdom).
  rewrite Hjobs in Htr, Hsz, Hdom. simpl in *.
  rewrite Hempty, map_size_empty in Hsz. simpl in Hsz.
  exists evs. split_and!; [done..|]. rewrite <-Hsz, <-size_dom.
  assert (dom (thread_local w1) ⊆ (set_seq 0 (Z.to_nat workers) : gset nat)) as Hsub.
  { intros t Ht. apply elem_of_dom in Ht. apply elem_of_set_seq.
    destruct (Hdom t Ht) as [Hs | Hin].
    - rewrite Hempty, lookup_empty in Hs. by destruct Hs.
    - apply list_elem_of_fmap in Hin as ([p t'] & -> & Hin).
      apply list_elem_of_fmap in Hin as (job & Hjob & Hin).
      rewrite Forall_forall in Hworkers. specialize (Hworkers job Hin).
      rewrite <-Hjob in Hworkers. simpl in *.
      split; [lia|]. apply Nat2Z.inj_lt. rewrite Z2Nat.id; lia. }
  apply subseteq_size in Hsub. rewrite size_set_seq in Hsub. lia.
Qed.

Lemma run_opens_one_session_per_worker_witness :
  let w' := (process_polygons Demo.env Demo.three_gdf "out" (lit 0 0) "http://wcs"
               "dtm" (lit 1 0) 100 Demo.three_jobs Demo.resumed_world).2 in
  ∃ evs, trace w' = ([] ++ evs)%list
    ∧ length (connects evs) = size (thread_local w')
    ∧ Z.of_nat (length (connects evs)) ≤ 2.
Proof.
  apply (run_opens_one_session_per_worker Demo.env Demo.three_gdf "out" 2 (lit 0 0)
           "http://wcs" "dtm" (lit 1 0) 100 Demo.three_jobs Demo.resumed_world);
    [lia | reflexivity | reflexivity | by repeat constructor].
Defined.

(** X21. Running again over a complete output directory does nothing: when the
    output of every polygon exists, every job is skipped, the counters are
    [(0, N, 0)], the failure list is empty and the world, files, sessions
    and trace, is unchanged. *)
Theorem rerun_of_complete_run_does_nothing {geometry raster mask}
    (E : Env geometry raster mask) (polygon_gdf : list (Z * geometry))
    (output_dir : string) (workers : Z) (sleep_duration : float)
    (wcs_url coverage_id : string) (resolution : float) (max_pixels : Z)
    (s : schedule) (w : world) :
  valid_schedule (length polygon_gdf) workers s →
  (∀ i g, (i, g) ∈ polygon_gdf →
     is_Some (fs w !! output_path E output_dir resolution i)) →
  process_polygons E polygon_gdf output_dir sleep_duration wcs_url coverage_id
    resolution max_pixels s w
  = ((0, Z.of_nat (length polygon_gdf), 0, []), w).
Proof.
  intros Hvalid Hfiles.
  pose proof (results_length E polygon_gdf output_dir sleep_duration wcs_url
                coverage_id resolution max_pixels s w workers Hvalid) as Hlen.
  unfold process_polygons.
  destruct (run_jobs _ _ _ _ _ _ _ _ _ _) as [done w1] eqn:Hjobs. simpl in Hlen.
  unfold run_jobs in Hjobs.
  destruct (run_jobs_all_skipped E polygon_gdf output_dir sleep_duration wcs_url
              coverage_id resolution max_pixels (run_order s) (∅, w)) as [Hw Hskip].
  { intros row Hrow. simpl. unfold bounds_df in Hrow.
    apply list_elem_of_fmap in Hrow as ([i g] & -> & Hin). simpl.
    destruct (geom_bounds E g) as [[[? ?] ?] ?]. simpl. by eapply Hfiles. }
  { simpl. by intros ? ? ?%lookup_empty_Some. }
  rewrite Hjobs in Hw, Hskip. simpl in Hw, Hskip. subst w1.
  set (items := as_completed E polygon_gdf s done) in *.
  assert (Forall (λ r, classify r = Skipped) items.*2) as Hall.
  { apply Forall_forall. intros r Hr.
    apply list_elem_of_fmap in Hr as ([row r'] & -> & Hin). simpl.
    subst items. unfold as_completed in Hin.
    apply list_elem_of_omap in Hin as (pos & _ & Hpos).
    destruct (bounds_df E polygon_gdf !! pos); [|done].
    destruct (done !! pos) as [r0|] eqn:Hr0; [|done]. simpl in Hpos. simplify_eq.
    by eapply Hskip. }
  assert (of_kind Success items.*2 = [] ∧ of_kind Failed items.*2 = []
          ∧ of_kind Skipped items.*2 = items.*2) as (Hsu & Hfa & Hsk).
  { clear -Hall. induction Hall as [|r rs Hr _ (IH1 & IH2 & IH3)]; [done|].
    rewrite !of_kind_cons, Hr, IH1, IH2, IH3. by repeat case_decide. }
  destruct (aggregate_fold E items (mkTally 0 0 0 [] 0)) as (Hc & Hs & Hf & Hl).
  unfold count in Hc, Hs, Hf. rewrite Hsu in Hc. rewrite Hsk in Hs. rewrite Hfa in Hf, Hl.
  rewrite length_fmap, Hlen in Hs. simpl in Hc, Hs, Hf, Hl.
  apply fmap_nil_inv in Hl. by rewrite Hc, Hs, Hf, Hl.
Qed.

Lemma rerun_of_complete_run_does_nothing_witness :
  let gdf := [(3, (lit 0 0, lit 0 0, lit 10 0, lit 10 0))] in
  process_polygons Demo.env gdf "out" (lit 0 0) "http://wcs" "dtm" (lit 1 0) 100
    Demo.one_job Demo.resumed_world
  = ((0, 1, 0, []), Demo.resumed_world).
Proof.
  intros gdf.
  apply (rerun_of_complete_run_does_nothing Demo.env gdf "out" 1 (lit 0 0)
           "http://wcs" "dtm" (lit 1 0) 100 Demo.one_job Demo.resumed_world).
  - split_and!; [reflexivity | reflexivity | by repeat constructor].
  - intros i g Hin. apply list_elem_of_In in Hin. simpl in Hin.
    destruct Hin as [Heq|[]]. injection Heq as <- _. vm_compute. by eexists.
Defined.
